(** * monaco-service: the CloudEvent receiver of [main.go]

    A shallow embedding of [src/main.go]: the environment configuration
    ([envConfig], [_main]), the payload parser
    ([parseKeptnCloudEventPayload]) and the router
    ([processKeptnCloudEvent]).

    Go statements become computations of the monad [Go]: a state
    transformer over the observable [World] of the process (the package
    variable [keptnOptions], the two logs, the outbound bus) whose outcome is
    a normal return, a process exit ([log.Fatalf]) or a panic.

    The imported packages (cloudevents sdk-go, keptn go-utils, envconfig) and
    the task handlers of [eventhandlers.go] are not part of [src/]; the router
    is stated and proved for every behaviour of them (section variables and
    the class [Decodable]).  Module [Reference] instantiates them with a
    JSON-level model of the packages to evaluate the router on concrete
    envelopes. *)

From stdpp Require Import base strings gmap list pretty.
From Stdlib Require Import Ascii.

(** ** Go: errors, outcomes and the process monad *)

(** Go's [error] interface: [None] is [nil], [Some msg] an error whose
    [Error()] string is [msg]. *)
Definition error : Type := option string.

(** [errors.New]. *)
Definition errors_New (msg : string) : error := Some msg.

Inductive Outcome (A : Type) : Type :=
| Returns (a : A)       (* the function returned [a] *)
| Exits (code : Z)      (* [os.Exit code]: the process is gone *)
| Panics (msg : string) (* a panic unwinding through the caller *).
Arguments Returns {A} a.
Arguments Exits {A} code.
Arguments Panics {A} msg.

(** What a call into an imported package can do besides returning a value:
    panic. *)
Inductive Call (A : Type) : Type :=
| Returned (a : A)
| Panicked (msg : string).
Arguments Returned {A} a.
Arguments Panicked {A} msg.

(** ** CloudEvents: the envelope *)

(** A JSON document, the decoded form of an envelope's [data] attribute. *)
#[local] Unset Elimination Schemes.
Inductive JSON : Type :=
| JNull
| JBool (b : bool)
| JNum (n : Z)
| JStr (s : string)
| JArr (items : list JSON)
| JObj (members : list (string * JSON)).
#[local] Set Elimination Schemes.

(** Extension attribute values ([map[string]interface{}] in the SDK). *)
Inductive ExtValue : Type :=
| ExtString (s : string)
| ExtInt (n : Z)
| ExtBool (b : bool).

(** [cloudevents.Event]: the context attributes the program reads, and the
    payload ([None] when the envelope carries no data). *)
Record Event : Type := mkEvent {
  EventType : string;                  (* event.Type() *)
  EventID : string;                    (* event.Context.GetID() *)
  EventSource : string;
  Extensions : gmap string ExtValue;
  Data : option JSON
}.

Definition GetID (e : Event) : string := EventID e.

(** [event.Context.ExtensionAs(name, &obj)] for a [*string] target: the new
    value of [obj] and the returned error.  A missing extension leaves [obj]
    as it was; a value that is not a string stores the zero string. *)
Definition ExtensionAs (e : Event) (name : string) (obj : string)
  : string * error :=
  match Extensions e !! name with
  | None => (obj, Some ("extension " +:+ name +:+ " does not exist"))
  | Some (ExtString s) => (s, None)
  | Some _ => ("", Some "unknown extension type *string")
  end.

(** [event.DataAs(data)]: the interface through which a payload is decoded
    into a typed structure.  [DataAs e d] is the structure after the call
    (Go fills it through the pointer) and the returned error. *)
Class Decodable (T : Type) : Type :=
  DataAs : Event → T → T * error.

(** ** keptn go-utils: names, payload structures, logger, options *)

Module keptnv2.

Definition keptnEventTypePrefix : string := "sh.keptn.event.".

Definition GetTriggeredEventType (task : string) : string :=
  keptnEventTypePrefix +:+ task +:+ ".triggered".
Definition GetStartedEventType (task : string) : string :=
  keptnEventTypePrefix +:+ task +:+ ".started".
Definition GetFinishedEventType (task : string) : string :=
  keptnEventTypePrefix +:+ task +:+ ".finished".
Definition GetStatusChangedEventType (task : string) : string :=
  keptnEventTypePrefix +:+ task +:+ ".status.changed".

Definition ConfigureMonitoringTaskName : string := "configure-monitoring".

(** [keptnv2.EventData], the fields common to every Keptn payload. *)
Record EventData : Type := mkEventData {
  Project : string;
  Stage : string;
  Service : string;
  Labels : gmap string string;
  Status : string;
  Result : string;
  Message : string
}.

Definition EventData_zero : EventData :=
  mkEventData "" "" "" ∅ "" "" "".

(** [keptnv2.ConfigureMonitoringTriggeredEventData]. *)
Record ConfigureMonitoringTriggeredEventData : Type := mkConfigureMonitoring {
  cm_EventData : EventData;
  cm_Type : string               (* ConfigureMonitoring.Type *)
}.

Definition ConfigureMonitoringTriggeredEventData_zero
  : ConfigureMonitoringTriggeredEventData :=
  mkConfigureMonitoring EventData_zero "".

End keptnv2.

Module keptn.

(** [keptn.KeptnOpts], the two options [_main] sets. *)
Record KeptnOpts : Type := mkKeptnOpts {
  UseLocalFileSystem : bool;
  ConfigurationServiceURL : string
}.

(** The zero value [keptn.KeptnOpts{}]. *)
Definition KeptnOpts_zero : KeptnOpts := mkKeptnOpts false "".

(** [keptn.NewLogger(keptnContext, eventID, serviceName)]. *)
Record Logger : Type := NewLogger {
  logKeptnContext : string;
  logEventID : string;
  logServiceName : string
}.

Inductive Level : Type := INFO | ERROR.

Record LogEntry : Type := mkLogEntry {
  entryLevel : Level;
  entryLogger : Logger;
  entryMessage : string
}.

End keptn.

(** [*keptnv2.Keptn]: the object bound to one incoming event that the
    handlers use to talk to the bus. *)
Record Keptn : Type := mkKeptn {
  KeptnContext : string;             (* myKeptn.KeptnContext *)
  CloudEvent : Event;                (* the incoming event it was built from *)
  KeptnBaseEvent : keptnv2.EventData;
  KeptnOptions : keptn.KeptnOpts
}.

(** ** main.go: declarations *)

(** [var keptnOptions = keptn.KeptnOpts{}] is part of the [World]. *)

Record envConfig : Type := mkEnvConfig {
  Port : Z;
  Path : string;
  Env : string;
  ConfigurationServiceUrl : string
}.

(** [type MonacoStartedEventData struct { keptnv2.EventData }]. *)
Record MonacoStartedEventData : Type := mkMonacoStarted {
  monaco_EventData : keptnv2.EventData
}.

Definition MonacoStartedEventData_zero : MonacoStartedEventData :=
  mkMonacoStarted keptnv2.EventData_zero.

Definition ServiceName : string := "monaco-service".
Definition MonacoEvent : string := "monaco".

(** ** The observable world of the process *)

(** Modelled from the spec: the outbound lifecycle events of section 6
    (the [SendTaskStartedEvent] / [SendTaskFinishedEvent] calls of the
    absent [eventhandlers.go] and the go-utils package behind them).  An
    outbound event carries the triggering event's id, the shared correlation
    id and, when finished, a status and a result/message. *)
Inductive Phase : Type := Started | Finished.

(** Modelled from the spec: the status of a finished event, "one of
    {succeeded, failed, errored}" (section 4.3). *)
Inductive StatusType : Type := StatusSucceeded | StatusFailed | StatusErrored.

(** Modelled from the spec: an outbound envelope as section 6 lists its
    content. *)
Record Outbound : Type := mkOutbound {
  outType : string;
  outPhase : Phase;
  outSource : string;
  outTriggeredID : string;
  outKeptnContext : string;
  outStatus : option StatusType;
  outResult : string;
  outMessage : string
}.

(** A call of one of the two task handlers, with its arguments. *)
Inductive Invocation : Type :=
| CallConfigureMonitoring
    (k : Keptn) (e : Event) (d : keptnv2.ConfigureMonitoringTriggeredEventData)
| CallMonaco (k : Keptn) (e : Event) (d : MonacoStartedEventData).

Record World : Type := mkWorld {
  keptnOptions : keptn.KeptnOpts;     (* the package variable of main.go *)
  stdlog : list string;               (* lines written through package log *)
  keptnlog : list keptn.LogEntry;     (* lines written through keptn.Logger *)
  bus : list Outbound;                (* events sent to the bus, oldest first *)
  invocations : list Invocation       (* handler calls, oldest first *)
}.

Definition Go (A : Type) : Type := World → World * Outcome A.

#[export] Instance Go_ret : MRet Go := λ A a w, (w, Returns a).

#[export] Instance Go_bind : MBind Go := λ A B f m w,
  match m w with
  | (w', Returns a) => f a w'
  | (w', Exits c) => (w', Exits c)
  | (w', Panics msg) => (w', Panics msg)
  end.

Definition panic {A} (msg : string) : Go A := λ w, (w, Panics msg).

Definition os_Exit {A} (code : Z) : Go A := λ w, (w, Exits code).

(** Package [log]. *)
Definition log_Println (line : string) : Go unit := λ w,
  (mkWorld (keptnOptions w) (stdlog w ++ [line]) (keptnlog w) (bus w)
     (invocations w), Returns tt).

Definition log_Printf : string → Go unit := log_Println.

(** [log.Fatalf] is [Printf] followed by [os.Exit(1)]. *)
Definition log_Fatalf {A} (line : string) : Go A :=
  log_Printf line ;; os_Exit 1%Z.

(** [keptn.Logger]. *)
Definition logger_write (lvl : keptn.Level) (l : keptn.Logger) (msg : string)
  : Go unit := λ w,
  (mkWorld (keptnOptions w) (stdlog w)
     (keptnlog w ++ [keptn.mkLogEntry lvl l msg]) (bus w) (invocations w),
   Returns tt).

Definition logger_Info := logger_write keptn.INFO.
Definition logger_Error := logger_write keptn.ERROR.

(** Reading and writing the package variable [keptnOptions]. *)
Definition get_keptnOptions : Go keptn.KeptnOpts := λ w,
  (w, Returns (keptnOptions w)).

Definition set_keptnOptions (o : keptn.KeptnOpts) : Go unit := λ w,
  (mkWorld o (stdlog w) (keptnlog w) (bus w) (invocations w), Returns tt).

Definition send (o : Outbound) : Go unit := λ w,
  (mkWorld (keptnOptions w) (stdlog w) (keptnlog w) (bus w ++ [o])
     (invocations w), Returns tt).

Definition record_call (c : Invocation) : Go unit := λ w,
  (mkWorld (keptnOptions w) (stdlog w) (keptnlog w) (bus w)
     (invocations w ++ [c]), Returns tt).

(** A call into an imported package made from the program: its panic
    unwinds through the caller. *)
Definition run_call {A} (c : Call A) : Go A :=
  match c with
  | Returned a => mret a
  | Panicked msg => panic msg
  end.

(** Dereferencing a [*keptnv2.Keptn]: a nil pointer panics. *)
Definition deref (p : option Keptn) : Go Keptn :=
  match p with
  | Some k => mret k
  | None => panic "invalid memory address or nil pointer dereference"
  end.

(** ** The task session and the task handlers *)

(** Modelled from the spec: the Task Session operations [emitStarted] and
    [emitFinished] of section 4.3 (in the program, methods of the go-utils
    [Keptn] object called from the absent [eventhandlers.go]).  Each builds
    an envelope of type [<prefix>.<task>.started] or [.finished], correlated
    to the triggering event id and carrying the session's correlation id. *)
Inductive SessionOp : Type :=
| EmitStarted (task : string)
| EmitFinished (task : string) (status : StatusType) (result message : string).

(** Modelled from the spec: the envelope a session operation sends, stamped
    with the id of the event the session is bound to and with the session's
    correlation id (section 4.3). *)
Definition emit (k : Keptn) (op : SessionOp) : Outbound :=
  match op with
  | EmitStarted task =>
      mkOutbound (keptnv2.GetStartedEventType task) Started ServiceName
        (GetID (CloudEvent k)) (KeptnContext k) None "" ""
  | EmitFinished task status result message =>
      mkOutbound (keptnv2.GetFinishedEventType task) Finished ServiceName
        (GetID (CloudEvent k)) (KeptnContext k) (Some status) result message
  end.

(** Modelled from the spec: a task handler (the functions
    [HandleConfigureMonitoringTriggeredEvent] and
    [HandleMonacoTriggeredEvent] of the absent [eventhandlers.go]).  Invoked
    with (session, envelope, typed payload), it emits lifecycle events through
    the session and leaves by one of the three exit paths of section 4.3:
    success, handled failure, or unexpected fault. *)
Inductive HandlerExit : Type :=
| Success
| HandledFailure (err : string)
| UnexpectedFault (msg : string).

(** Modelled from the spec: one run of a handler, the session operations it
    performs in order and the way it leaves. *)
Record HandlerRun : Type := mkRun {
  ops : list SessionOp;
  exit : HandlerExit
}.

Definition Handler (T : Type) : Type := Keptn → Event → T → HandlerRun.

(** Modelled from the spec: running a handler sends its events to the bus
    and then returns [nil], returns an error, or panics. *)
Fixpoint emit_all (k : Keptn) (l : list SessionOp) : Go unit :=
  match l with
  | [] => mret tt
  | op :: l' => send (emit k op) ;; emit_all k l'
  end.

Definition leave (x : HandlerExit) : Go error :=
  match x with
  | Success => mret None
  | HandledFailure err => mret (Some err)
  | UnexpectedFault msg => panic msg
  end.

Definition run_handler (k : Keptn) (r : HandlerRun) : Go error :=
  emit_all k (ops r) ;; leave (exit r).

(** ** main.go: functions *)

(** The [return] statements of [processKeptnCloudEvent], by source line; the
    model returns the site next to the returned error so that a theorem can
    say through which statement a call left. *)
Inductive ReturnSite : Type := Line64 | Line71 | Line139 | Line151 | Line206.

(** [fmt.Sprintf("gotEvent(%s): %s - %s", t, ctx, id)]. *)
Definition Sprintf_gotEvent (t ctx id : string) : string :=
  "gotEvent(" +:+ t +:+ "): " +:+ ctx +:+ " - " +:+ id.

Section Main.

Context {decodeConfigureMonitoring :
           Decodable keptnv2.ConfigureMonitoringTriggeredEventData}
        {decodeMonaco : Decodable MonacoStartedEventData}.

(** [keptnv2.NewKeptn(&event, opts)]: a pointer (possibly nil) and an
    error, as the package returns them, or a panic inside the package. *)
Variable NewKeptn : Event → keptn.KeptnOpts → Call (option Keptn * error).

(** The behaviour of the two task handlers. *)
Variable ConfigureMonitoringHandler :
  Handler keptnv2.ConfigureMonitoringTriggeredEventData.
Variable MonacoHandler : Handler MonacoStartedEventData.

Definition HandleConfigureMonitoringTriggeredEvent (myKeptn : Keptn)
    (incomingEvent : Event)
    (data : keptnv2.ConfigureMonitoringTriggeredEventData) : Go error :=
  record_call (CallConfigureMonitoring myKeptn incomingEvent data) ;;
  run_handler myKeptn (ConfigureMonitoringHandler myKeptn incomingEvent data).

Definition HandleMonacoTriggeredEvent (myKeptn : Keptn)
    (incomingEvent : Event) (data : MonacoStartedEventData) : Go error :=
  record_call (CallMonaco myKeptn incomingEvent data) ;;
  run_handler myKeptn (MonacoHandler myKeptn incomingEvent data).

(** main.go, lines 40-47.  The [return err] after [log.Fatalf] is kept: it
    is what would run if [Fatalf] returned. *)
Definition parseKeptnCloudEventPayload {T} `{Decodable T}
    (event : Event) (data : T) : Go (T * error) :=
  let '(data, err) := DataAs event data in
  match err with
  | Some e =>
      log_Fatalf (A:=unit) ("Got Data Error: " +:+ e) ;;
      mret (data, err)
  | None => mret (data, None)
  end.

(** main.go, lines 131-206: the [switch] on the event type and the
    fall-through for unknown types. *)
Definition dispatch (logger : keptn.Logger) (myKeptn : Keptn)
    (event : Event) : Go (ReturnSite * error) :=
  if decide (EventType event
             = keptnv2.GetTriggeredEventType
                 keptnv2.ConfigureMonitoringTaskName) then
    logger_Info logger "Processing configure-monitoring.Triggered Event" ;;
    '(eventData, _) ← parseKeptnCloudEventPayload event
                         keptnv2.ConfigureMonitoringTriggeredEventData_zero ;
    r ← HandleConfigureMonitoringTriggeredEvent myKeptn event eventData ;
    mret (Line139, r)
  else if decide (EventType event
                  = keptnv2.GetTriggeredEventType MonacoEvent) then
    logger_Info logger "Processing sh.keptn.event.monaco.triggered Event" ;;
    '(eventData, _) ← parseKeptnCloudEventPayload event
                         MonacoStartedEventData_zero ;
    r ← HandleMonacoTriggeredEvent myKeptn event eventData ;
    mret (Line151, r)
  else
    let errorMsg := "Unhandled Keptn Cloud Event: " +:+ EventType event in
    logger_Error logger errorMsg ;;
    mret (Line206, None).

(** main.go, lines 67-206: what follows the first check of [err], with
    the values the variables [myKeptn] and [err] hold at that point. *)
Definition after_first_check (logger : keptn.Logger)
    (myKeptn : option Keptn) (err : error) (event : Event)
  : Go (ReturnSite * error) :=
  k ← deref myKeptn ;
  logger_Info logger
    (Sprintf_gotEvent (EventType event) (KeptnContext k) (GetID event)) ;;
  match err with
  | Some e =>
      logger_Error logger ("failed to parse incoming cloudevent: " +:+ e) ;;
      mret (Line71, err)
  | None => dispatch logger k event
  end.

(** main.go, lines 54-207. *)
Definition processKeptnCloudEvent (event : Event)
  : Go (ReturnSite * error) :=
  let shkeptncontext := (ExtensionAs event "shkeptncontext" "").1 in
  let logger := keptn.NewLogger shkeptncontext (GetID event) ServiceName in
  logger_Info logger "Initializing Keptn Handler" ;;
  opts ← get_keptnOptions ;
  '(myKeptn, err) ← run_call (NewKeptn event opts) ;
  match err with
  | Some e =>
      mret (Line64, errors_New ("Could not create Keptn Handler: " +:+ e))
  | None => after_first_check logger myKeptn err event
  end.

(** What [dispatch] selects for an event: the handler run, the recorded
    call and the error of the payload decoding that precedes it ([None]
    for a type outside the [switch]). *)
Definition selected_run (k : Keptn) (event : Event) : option HandlerRun :=
  if decide (EventType event
             = keptnv2.GetTriggeredEventType
                 keptnv2.ConfigureMonitoringTaskName) then
    Some (ConfigureMonitoringHandler k event
            (DataAs event
               keptnv2.ConfigureMonitoringTriggeredEventData_zero).1)
  else if decide (EventType event
                  = keptnv2.GetTriggeredEventType MonacoEvent) then
    Some (MonacoHandler k event (DataAs event MonacoStartedEventData_zero).1)
  else None.

Definition selected_call (k : Keptn) (event : Event) : option Invocation :=
  if decide (EventType event
             = keptnv2.GetTriggeredEventType
                 keptnv2.ConfigureMonitoringTaskName) then
    Some (CallConfigureMonitoring k event
            (DataAs event
               keptnv2.ConfigureMonitoringTriggeredEventData_zero).1)
  else if decide (EventType event
                  = keptnv2.GetTriggeredEventType MonacoEvent) then
    Some (CallMonaco k event (DataAs event MonacoStartedEventData_zero).1)
  else None.

Definition payload_error (event : Event) : error :=
  if decide (EventType event
             = keptnv2.GetTriggeredEventType
                 keptnv2.ConfigureMonitoringTaskName) then
    (DataAs event keptnv2.ConfigureMonitoringTriggeredEventData_zero).2
  else if decide (EventType event
                  = keptnv2.GetTriggeredEventType MonacoEvent) then
    (DataAs event MonacoStartedEventData_zero).2
  else None.

End Main.

(** ** main.go: configuration and start-up *)

(** The [envconfig] and [default] struct tags of one [envConfig] field. *)
Record Tag : Type := mkTag {
  envconfig_tag : string;
  default_tag : string
}.

Definition tag_Port : Tag := mkTag "RCV_PORT" "8080".
Definition tag_Path : Tag := mkTag "RCV_PATH" "/".
Definition tag_Env : Tag := mkTag "ENV" "local".
Definition tag_ConfigurationServiceUrl : Tag :=
  mkTag "CONFIGURATION_SERVICE" "".

(** The string [envconfig.Process] assigns to a field: the variable when it
    is set, else the default when there is one; [None] leaves the field at
    its zero value. *)
Definition field_value (environ : gmap string string) (t : Tag)
  : option string :=
  match environ !! envconfig_tag t with
  | Some value => Some value
  | None => if decide (default_tag t = "") then None else Some (default_tag t)
  end.

Section Startup.

(** [strconv.ParseInt], through which envconfig fills an [int] field. *)
Variable ParseInt : string → option Z.

(** [cloudevents.NewHTTP(WithPath(path), WithPort(port))] and
    [cloudevents.NewClient(p)], reduced to the error they return. *)
Variable NewHTTP : string → Z → error.
Variable NewClient : string → Z → error.

(** [c.StartReceiver(ctx, processKeptnCloudEvent)] on a client listening
    on the given path and port: whatever serving requests does to the
    world, until it returns. *)
Variable StartReceiver : string → Z → Go error.

(** [envconfig.Process("", &env)]. *)
Definition envconfig_Process (environ : gmap string string)
  : envConfig + string :=
  let port :=
    match field_value environ tag_Port with
    | Some value => ParseInt value
    | None => Some 0%Z
    end in
  match port with
  | None => inr "envconfig.Process: assigning RCV_PORT to Port"
  | Some port =>
      inl (mkEnvConfig port
             (default "" (field_value environ tag_Path))
             (default "" (field_value environ tag_Env))
             (default "" (field_value environ tag_ConfigurationServiceUrl)))
  end.

(** main.go, lines 229-235: the part of [_main] that configures
    [keptnOptions]. *)
Definition configure_keptnOptions (env : envConfig) : Go unit :=
  (if decide (Env env = "local") then
     log_Println
       "env=local: Running with local filesystem to fetch resources" ;;
     o ← get_keptnOptions ;
     set_keptnOptions
       (keptn.mkKeptnOpts true (keptn.ConfigurationServiceURL o))
   else mret tt) ;;
  o ← get_keptnOptions ;
  set_keptnOptions
    (keptn.mkKeptnOpts (keptn.UseLocalFileSystem o)
       (ConfigurationServiceUrl env)).

(** main.go, lines 228-260. *)
Definition _main (args : list string) (env : envConfig) : Go Z :=
  configure_keptnOptions env ;;
  log_Println "Starting monaco-service..." ;;
  log_Printf ("    on Port = " +:+ pretty (Port env)
              +:+ "; Path=" +:+ Path env) ;;
  log_Printf "Creating new http handler" ;;
  match NewHTTP (Path env) (Port env) with
  | Some err => log_Fatalf ("failed to create client, " +:+ err)
  | None =>
      match NewClient (Path env) (Port env) with
      | Some err => log_Fatalf ("failed to create client, " +:+ err)
      | None =>
          log_Printf "Starting receiver" ;;
          r ← StartReceiver (Path env) (Port env) ;
          log_Fatalf (A:=unit) (default "<nil>" r) ;;
          mret 0%Z
      end
  end.

(** main.go, lines 216-223. *)
Definition main (environ : gmap string string) (args : list string)
  : Go unit :=
  match envconfig_Process environ with
  | inr err => log_Fatalf ("Failed to process env var: " +:+ err)
  | inl env => code ← _main args env ; os_Exit code
  end.

End Startup.

(** ** A reference model of the imported packages

    [encoding/json] on the payload structures, [Event.DataAs] and
    [keptnv2.NewKeptn] as the packages behave, precise enough to run the
    router on concrete envelopes.  The general theorems below do not depend
    on it. *)
Module Reference.

(** [encoding/json] matches an object member to a struct field without
    regard to case: ASCII letters fold to lower case, and the Kelvin sign
    (U+212A, bytes E2 84 AA) and the long s (U+017F, bytes C5 BF) fold to
    [k] and [s]. *)
Definition lower (c : Ascii.ascii) : Ascii.ascii :=
  let n := Ascii.N_of_ascii c in
  if (65 <=? n)%N && (n <=? 90)%N then Ascii.ascii_of_N (n + 32) else c.

Fixpoint fold_name (s : string) : string :=
  match s with
  | EmptyString => EmptyString
  | String "197"%char (String "191"%char s') =>
      String "s"%char (fold_name s')
  | String "226"%char (String "132"%char (String "170"%char s')) =>
      String "k"%char (fold_name s')
  | String c s' => String (lower c) (fold_name s')
  end.

Definition names (key field : string) : bool :=
  bool_decide (fold_name key = fold_name field).

Definition first_error (e1 e2 : error) : error :=
  match e1 with
  | Some _ => e1
  | None => e2
  end.

(** A JSON value stored into a field of type [string]. *)
Definition set_string (field : string) (v : JSON) (old : string)
  : string * error :=
  match v with
  | JStr s => (s, None)
  | JNull => (old, None)
  | _ => (old, Some ("json: cannot unmarshal into Go struct field "
                      +:+ field +:+ " of type string"))
  end.

(** A JSON value stored into a field of type [map[string]string]. *)
Definition set_labels (v : JSON) (old : gmap string string)
  : gmap string string * error :=
  match v with
  | JNull => (old, None)
  | JObj members =>
      foldl (λ '(m, err) '(key, x),
               let '(s, e) := set_string "labels" x "" in
               (<[key:=s]> m, first_error err e))
        (old, None) members
  | _ => (old, Some "json: cannot unmarshal into Go struct field labels")
  end.

Definition EventData_member (d : keptnv2.EventData) (key : string)
    (v : JSON) : keptnv2.EventData * error :=
  let '(keptnv2.mkEventData project stage service labels status result
          message) := d in
  if names key "project" then
    let '(s, e) := set_string key v project in
    (keptnv2.mkEventData s stage service labels status result message, e)
  else if names key "stage" then
    let '(s, e) := set_string key v stage in
    (keptnv2.mkEventData project s service labels status result message, e)
  else if names key "service" then
    let '(s, e) := set_string key v service in
    (keptnv2.mkEventData project stage s labels status result message, e)
  else if names key "labels" then
    let '(m, e) := set_labels v labels in
    (keptnv2.mkEventData project stage service m status result message, e)
  else if names key "status" then
    let '(s, e) := set_string key v status in
    (keptnv2.mkEventData project stage service labels s result message, e)
  else if names key "result" then
    let '(s, e) := set_string key v result in
    (keptnv2.mkEventData project stage service labels status s message, e)
  else if names key "message" then
    let '(s, e) := set_string key v message in
    (keptnv2.mkEventData project stage service labels status result s, e)
  else (d, None).

(** [json.Unmarshal] into a struct: the members are stored in order, the
    first error is kept and decoding goes on. *)
Definition unmarshal {T} (member : T → string → JSON → T * error)
    (v : JSON) (d : T) : T * error :=
  match v with
  | JNull => (d, None)
  | JObj members =>
      foldl (λ '(d, err) '(key, x),
               let '(d', e) := member d key x in (d', first_error err e))
        (d, None) members
  | _ => (d, Some "json: cannot unmarshal into Go value")
  end.

Definition ConfigureMonitoring_member (t : string) (key : string) (v : JSON)
  : string * error :=
  if names key "type" then set_string key v t else (t, None).

Definition ConfigureMonitoringTriggeredEventData_member
    (d : keptnv2.ConfigureMonitoringTriggeredEventData) (key : string)
    (v : JSON) : keptnv2.ConfigureMonitoringTriggeredEventData * error :=
  if names key "configureMonitoring" then
    let '(t, e) := unmarshal ConfigureMonitoring_member v
                     (keptnv2.cm_Type d) in
    (keptnv2.mkConfigureMonitoring (keptnv2.cm_EventData d) t, e)
  else
    let '(b, e) := EventData_member (keptnv2.cm_EventData d) key v in
    (keptnv2.mkConfigureMonitoring b (keptnv2.cm_Type d), e).

Definition MonacoStartedEventData_member (d : MonacoStartedEventData)
    (key : string) (v : JSON) : MonacoStartedEventData * error :=
  let '(b, e) := EventData_member (monaco_EventData d) key v in
  (mkMonacoStarted b, e).

(** [Event.DataAs]: no data is no error and leaves the target as it is. *)
Definition DataAs_with {T} (member : T → string → JSON → T * error)
  : Decodable T := λ e d,
  match Data e with
  | None => (d, None)
  | Some v => unmarshal member v d
  end.

#[export] Instance decode_EventData : Decodable keptnv2.EventData :=
  DataAs_with EventData_member.
#[export] Instance decode_ConfigureMonitoring
  : Decodable keptnv2.ConfigureMonitoringTriggeredEventData :=
  DataAs_with ConfigureMonitoringTriggeredEventData_member.
#[export] Instance decode_Monaco : Decodable MonacoStartedEventData :=
  DataAs_with MonacoStartedEventData_member.

(** [keptnv2.NewKeptn]: takes the [shkeptncontext] extension as a string
    (a value of another type panics in the type assertion, a missing one
    gives the empty string), decodes the payload as [EventData] and binds
    the object to the incoming event. *)
Definition NewKeptn (event : Event) (opts : keptn.KeptnOpts)
  : Call (option Keptn * error) :=
  match Extensions event !! "shkeptncontext" with
  | Some (ExtInt _) =>
      Panicked "interface conversion: interface {} is int32, not string"
  | Some (ExtBool _) =>
      Panicked "interface conversion: interface {} is bool, not string"
  | Some (ExtString _) | None =>
      let '(keptnBase, err) := DataAs event keptnv2.EventData_zero in
      match err with
      | Some e => Returned (None, Some e)
      | None =>
          Returned
            (Some (mkKeptn (ExtensionAs event "shkeptncontext" "").1 event
                     keptnBase opts), None)
      end
  end.

End Reference.

(** ** Observations used in the statements *)

(** The event types bound to a handler by the [switch]. *)
Definition registered (t : string) : Prop :=
  t = keptnv2.GetTriggeredEventType keptnv2.ConfigureMonitoringTaskName
  ∨ t = keptnv2.GetTriggeredEventType MonacoEvent.

(** The events sent between world [w] and the later world [w']. *)
Definition emitted (w w' : World) : list Outbound :=
  drop (length (bus w)) (bus w').

(** The log entries written between [w] and [w']. *)
Definition logged (w w' : World) : list keptn.LogEntry :=
  drop (length (keptnlog w)) (keptnlog w').

(** The handler calls made between [w] and [w']. *)
Definition called (w w' : World) : list Invocation :=
  drop (length (invocations w)) (invocations w').

Definition is_finished (o : Outbound) : bool :=
  match outPhase o with
  | Finished => true
  | Started => false
  end.

Definition is_started (o : Outbound) : bool := negb (is_finished o).

Definition status_eqb (a b : StatusType) : bool :=
  match a, b with
  | StatusSucceeded, StatusSucceeded
  | StatusFailed, StatusFailed
  | StatusErrored, StatusErrored => true
  | _, _ => false
  end.

Definition is_finished_with (s : StatusType) (o : Outbound) : bool :=
  is_finished o &&
  match outStatus o with
  | Some s' => status_eqb s s'
  | None => false
  end.

Definition op_is_finished (op : SessionOp) : bool :=
  match op with
  | EmitFinished _ _ _ _ => true
  | EmitStarted _ => false
  end.


Definition is_error_entry (e : keptn.LogEntry) : bool :=
  match keptn.entryLevel e with
  | keptn.ERROR => true
  | keptn.INFO => false
  end.

(** How a handler run leaves, seen from its caller. *)
Definition exit_outcome (x : HandlerExit) : Outcome error :=
  match x with
  | Success => Returns None
  | HandledFailure err => Returns (Some err)
  | UnexpectedFault msg => Panics msg
  end.

Definition at_site (s : ReturnSite) (o : Outcome error)
  : Outcome (ReturnSite * error) :=
  match o with
  | Returns e => Returns (s, e)
  | Exits c => Exits c
  | Panics msg => Panics msg
  end.

(** The [return] statement a call left through, and the error it returned
    to the transport layer, when it returned. *)
Definition returned_at (o : Outcome (ReturnSite * error))
  : option ReturnSite :=
  match o with
  | Returns (s, _) => Some s
  | _ => None
  end.

Definition returned_error (o : Outcome (ReturnSite * error))
  : option error :=
  match o with
  | Returns (_, e) => Some e
  | _ => None
  end.

(** [w'] is [w] with the given lines, entries, events and calls appended. *)
Definition extend (w : World) (lines : list string)
    (entries : list keptn.LogEntry) (events : list Outbound)
    (calls : list Invocation) : World :=
  mkWorld (keptnOptions w) (stdlog w ++ lines) (keptnlog w ++ entries)
    (bus w ++ events) (invocations w ++ calls).

(** The logger [processKeptnCloudEvent] builds on lines 56-58, and the
    entries an event writes to the keptn log. *)
Definition logger_of (event : Event) : keptn.Logger :=
  keptn.NewLogger (ExtensionAs event "shkeptncontext" "").1 (GetID event)
    ServiceName.

Definition entry_init (event : Event) : keptn.LogEntry :=
  keptn.mkLogEntry keptn.INFO (logger_of event) "Initializing Keptn Handler".

Definition entry_gotEvent (k : Keptn) (event : Event) : keptn.LogEntry :=
  keptn.mkLogEntry keptn.INFO (logger_of event)
    (Sprintf_gotEvent (EventType event) (KeptnContext k) (GetID event)).

Definition entry_dispatch (logger : keptn.Logger) (event : Event)
  : keptn.LogEntry :=
  if decide (EventType event
             = keptnv2.GetTriggeredEventType
                 keptnv2.ConfigureMonitoringTaskName) then
    keptn.mkLogEntry keptn.INFO logger
      "Processing configure-monitoring.Triggered Event"
  else if decide (EventType event
                  = keptnv2.GetTriggeredEventType MonacoEvent) then
    keptn.mkLogEntry keptn.INFO logger
      "Processing sh.keptn.event.monaco.triggered Event"
  else
    keptn.mkLogEntry keptn.ERROR logger
      ("Unhandled Keptn Cloud Event: " +:+ EventType event).

(** The [return] statement of the [switch] an event type leads to. *)
Definition dispatch_site (event : Event) : ReturnSite :=
  if decide (EventType event
             = keptnv2.GetTriggeredEventType
                 keptnv2.ConfigureMonitoringTaskName) then Line139
  else if decide (EventType event
                  = keptnv2.GetTriggeredEventType MonacoEvent) then Line151
  else Line206.

(** ** Concrete envelopes, handlers and worlds *)

Module Examples.

(** A fresh process: [keptnOptions] at its zero value, nothing logged,
    nothing sent. *)
Definition w0 : World := mkWorld keptn.KeptnOpts_zero [] [] [] [].

(** [sh.keptn.event.monaco.triggered] with payload [{"project":"p1"}]. *)
Definition ev_monaco : Event :=
  mkEvent "sh.keptn.event.monaco.triggered" "id-1" "shipyard-controller"
    {[ "shkeptncontext" := ExtString "ctx-1" ]}
    (Some (JObj [("project", JStr "p1")])).

Definition data_p1 : MonacoStartedEventData :=
  mkMonacoStarted (keptnv2.mkEventData "p1" "" "" ∅ "" "" "").

Definition keptn_monaco : Keptn :=
  mkKeptn "ctx-1" ev_monaco (keptnv2.mkEventData "p1" "" "" ∅ "" "" "")
    keptn.KeptnOpts_zero.

(** The same envelope without the [shkeptncontext] extension. *)
Definition ev_monaco_nocontext : Event :=
  mkEvent "sh.keptn.event.monaco.triggered" "id-1" "shipyard-controller" ∅
    (Some (JObj [("project", JStr "p1")])).

(** The same envelope with a number as [shkeptncontext]. *)
Definition ev_monaco_intcontext : Event :=
  mkEvent "sh.keptn.event.monaco.triggered" "id-1" "shipyard-controller"
    {[ "shkeptncontext" := ExtInt 5 ]}
    (Some (JObj [("project", JStr "p1")])).

(** [sh.keptn.event.configure-monitoring.triggered] whose
    [configureMonitoring] member is a string where the structure expects
    an object: [{"project":"p1","configureMonitoring":"prometheus"}]. *)
Definition ev_configure_mismatch : Event :=
  mkEvent "sh.keptn.event.configure-monitoring.triggered" "id-2"
    "shipyard-controller" {[ "shkeptncontext" := ExtString "ctx-2" ]}
    (Some (JObj [("project", JStr "p1");
                 ("configureMonitoring", JStr "prometheus")])).

(** An event type the service does not own, with an object payload. *)
Definition ev_unknown : Event :=
  mkEvent "sh.keptn.event.unknown-task.triggered" "id-3"
    "shipyard-controller" {[ "shkeptncontext" := ExtString "ctx-3" ]}
    (Some (JObj [("project", JStr "p1")])).

Definition keptn_unknown : Keptn :=
  mkKeptn "ctx-3" ev_unknown (keptnv2.mkEventData "p1" "" "" ∅ "" "" "")
    keptn.KeptnOpts_zero.

(** An event type the service does not own whose payload is a JSON
    array: [[1]]. *)
Definition ev_unknown_array : Event :=
  mkEvent "sh.keptn.event.unknown-task.triggered" "id-4"
    "shipyard-controller" {[ "shkeptncontext" := ExtString "ctx-4" ]}
    (Some (JArr [JNum 1])).

(** Handler behaviours. *)
Definition succeeds_silently {T} : Handler T :=
  λ _ _ _, mkRun [] Success.

Definition fails_silently {T} : Handler T :=
  λ _ _ _, mkRun [] (HandledFailure "monaco failed").

Definition faults_after_started {T} : Handler T :=
  λ _ _ _, mkRun [EmitStarted "monaco"] (UnexpectedFault "boom").

Definition reports_success {T} : Handler T :=
  λ _ _ _, mkRun [EmitStarted "monaco";
                  EmitFinished "monaco" StatusSucceeded "pass" "done"]
             Success.

(** A decimal reading of the one string the defaults need. *)
Definition ParseInt_8080 (s : string) : option Z :=
  if decide (s = "8080") then Some 8080%Z else None.

Definition NewHTTP_ok (path : string) (port : Z) : error := None.

Definition StartReceiver_idle (path : string) (port : Z) : Go error :=
  mret None.

End Examples.

(** ** eventhandler_test.go *)

Section Test.

Context {decodeMonaco : Decodable MonacoStartedEventData}.

(** [ioutil.ReadFile]: the content of the named file, or an error. *)
Variable ReadFile : string → string + string.

(** [json.Unmarshal(eventFile, incomingEvent)] into a fresh
    [cloudevents.Event]: the event, or an error. *)
Variable Unmarshal_Event : string → Event + string.

Variable NewKeptn : Event → keptn.KeptnOpts → Call (option Keptn * error).
Variable MonacoHandler : Handler MonacoStartedEventData.

(** eventhandler_test.go, lines 17-38.  The local [keptnOptions] shadows the
    package variable of main.go. *)
Definition initializeTestObjects (eventFileName : string)
  : Call (option Keptn * option Event * error) :=
  match ReadFile eventFileName with
  | inr err =>
      Returned (None, None,
                Some ("Cant load " +:+ eventFileName +:+ ": " +:+ err))
  | inl eventFile =>
      match Unmarshal_Event eventFile with
      | inr err => Returned (None, None, Some ("Error parsing: " +:+ err))
      | inl incomingEvent =>
          let keptnOptions := keptn.KeptnOpts_zero in
          let keptnOptions :=
            keptn.mkKeptnOpts true (keptn.ConfigurationServiceURL keptnOptions)
          in
          match NewKeptn incomingEvent keptnOptions with
          | Panicked msg => Panicked msg
          | Returned (myKeptn, err) =>
              Returned (myKeptn, Some incomingEvent, err)
          end
      end
  end.

(** Dereferencing a [*cloudevents.Event]. *)
Definition deref_event (p : option Event) : Go Event :=
  match p with
  | Some e => mret e
  | None => panic "invalid memory address or nil pointer dereference"
  end.

(** eventhandler_test.go, lines 42-59.  The result is the list of failures
    reported through [t.Error] and [t.Errorf], oldest first; the test passes
    when it returns with none.  The handler works through the Keptn object
    it is given, so a nil [myKeptn] panics at the call. *)
Definition TestHandleMonacoTriggeredEvent : Go (list string) :=
  let t : list string := [] in
  '(myKeptn, incomingEvent, err) ←
    run_call (initializeTestObjects "test-events/monaco.triggered.json") ;
  match err with
  | Some e => mret (t ++ [e])
  | None =>
      event ← deref_event incomingEvent ;
      let '(specificEvent, err) := DataAs event MonacoStartedEventData_zero in
      let t :=
        match err with
        | Some _ => t ++ ["Error getting keptn event data"]
        | None => t
        end in
      k ← deref myKeptn ;
      err ← HandleMonacoTriggeredEvent MonacoHandler k event specificEvent ;
      let t :=
        match err with
        | Some e => t ++ ["Error: " +:+ e]
        | None => t
        end in
      mret t
  end.

End Test.

(** The characters of a string, first to last. *)
Fixpoint chars (s : string) : list Ascii.ascii :=
  match s with
  | EmptyString => []
  | String c s' => c :: chars s'
  end.

(** ** The courses a call of the router can take *)

Section Courses.

Context {decodeConfigureMonitoring :
           Decodable keptnv2.ConfigureMonitoringTriggeredEventData}
        {decodeMonaco : Decodable MonacoStartedEventData}.
Variable NewKeptn : Event → keptn.KeptnOpts → Call (option Keptn * error).
Variable ConfigureMonitoringHandler :
  Handler keptnv2.ConfigureMonitoringTriggeredEventData.
Variable MonacoHandler : Handler MonacoStartedEventData.

(** The ways through [processKeptnCloudEvent] (panic inside [NewKeptn],
    return at line 64, nil dereference at line 67, [log.Fatalf] in the
    payload parser, return of the handler's result, return at line 206),
    each with the world and the outcome it ends in when the call starts in
    world [w]. *)
Inductive Course (event : Event) (w : World)
  : World * Outcome (ReturnSite * error) → Prop :=
| KeptnPanicked msg :
    NewKeptn event (keptnOptions w) = Panicked msg →
    Course event w (extend w [] [entry_init event] [] [], Panics msg)
| KeptnFailed p e :
    NewKeptn event (keptnOptions w) = Returned (p, Some e) →
    Course event w
      (extend w [] [entry_init event] [] [],
       Returns (Line64, Some ("Could not create Keptn Handler: " +:+ e)))
| KeptnNil :
    NewKeptn event (keptnOptions w) = Returned (None, None) →
    Course event w
      (extend w [] [entry_init event] [] [],
       Panics "invalid memory address or nil pointer dereference")
| PayloadRejected k e :
    NewKeptn event (keptnOptions w) = Returned (Some k, None) →
    registered (EventType event) →
    payload_error event = Some e →
    Course event w
      (extend w ["Got Data Error: " +:+ e]
         [entry_init event; entry_gotEvent k event;
          entry_dispatch (logger_of event) event] [] [],
       Exits 1)
| Handled k run call :
    NewKeptn event (keptnOptions w) = Returned (Some k, None) →
    registered (EventType event) →
    payload_error event = None →
    selected_run ConfigureMonitoringHandler MonacoHandler k event
    = Some run →
    selected_call k event = Some call →
    Course event w
      (extend w []
         [entry_init event; entry_gotEvent k event;
          entry_dispatch (logger_of event) event]
         (map (emit k) (ops run)) [call],
       at_site (dispatch_site event) (exit_outcome (exit run)))
| Dropped k :
    NewKeptn event (keptnOptions w) = Returned (Some k, None) →
    ¬ registered (EventType event) →
    Course event w
      (extend w []
         [entry_init event; entry_gotEvent k event;
          entry_dispatch (logger_of event) event] [] [],
       Returns (Line206, None)).

End Courses.

(** ** Further concrete inputs *)

Module MoreExamples.

(** The finished event of the service's own task. *)
Definition ev_monaco_finished : Event :=
  mkEvent "sh.keptn.event.monaco.finished" "id-5" "monaco-service"
    {[ "shkeptncontext" := ExtString "ctx-1" ]}
    (Some (JObj [("project", JStr "p1"); ("status", JStr "succeeded")])).

Definition keptn_monaco_finished : Keptn :=
  mkKeptn "ctx-1" ev_monaco_finished
    (keptnv2.mkEventData "p1" "" "" ∅ "succeeded" "" "")
    keptn.KeptnOpts_zero.

(** Environments. *)
Definition environ_bad_port : gmap string string :=
  {[ "RCV_PORT" := "eighty" ]}.


Definition env_default : envConfig := mkEnvConfig 8080 "/" "local" "".

(** Package behaviours. *)
Definition NewHTTP_invalid (path : string) (port : Z) : error :=
  Some "invalid port".

Definition StartReceiver_stops (path : string) (port : Z) : Go error :=
  mret (Some "http: Server closed").


Definition ReadFile_empty (name : string) : string + string :=
  inr "no such file or directory".

Definition Unmarshal_sample (content : string) : Event + string :=
  if decide (content = "monaco.triggered")
  then inl Examples.ev_monaco else inr "unexpected end of JSON input".


End MoreExamples.

(** * Properties *)

(** ** The process monad and its primitives *)


Lemma extend_nil w : extend w [] [] [] [] = w.
Proof. destruct w. unfold extend. simpl. by rewrite !app_nil_r. Qed.

Lemma extend_extend w a b c d a' b' c' d' :
  extend (extend w a b c d) a' b' c' d'
  = extend w (a ++ a') (b ++ b') (c ++ c') (d ++ d').
Proof. unfold extend. simpl. by rewrite <- !app_assoc. Qed.

Lemma bind_returns {A B} (m : Go A) (f : A → Go B) w w' a :
  m w = (w', Returns a) → (m ≫= f) w = f a w'.
Proof. intros E. unfold mbind, Go_bind. by rewrite E. Qed.

Lemma bind_mret {A B} (a : A) (f : A → Go B) w : (mret a ≫= f) w = f a w.
Proof. done. Qed.

Lemma bind_exits {A B} (m : Go A) (f : A → Go B) w w' c :
  m w = (w', Exits c) → (m ≫= f) w = (w', Exits c).
Proof. intros E. unfold mbind, Go_bind. by rewrite E. Qed.

Lemma bind_panics {A B} (m : Go A) (f : A → Go B) w w' msg :
  m w = (w', Panics msg) → (m ≫= f) w = (w', Panics msg).
Proof. intros E. unfold mbind, Go_bind. by rewrite E. Qed.

Lemma logger_write_run lvl l msg w :
  logger_write lvl l msg w
  = (extend w [] [keptn.mkLogEntry lvl l msg] [] [], Returns tt).
Proof. unfold logger_write, extend. by rewrite !app_nil_r. Qed.

Lemma send_run o w : send o w = (extend w [] [] [o] [], Returns tt).
Proof. unfold send, extend. by rewrite !app_nil_r. Qed.

Lemma record_call_run c w :
  record_call c w = (extend w [] [] [] [c], Returns tt).
Proof. unfold record_call, extend. by rewrite !app_nil_r. Qed.

Lemma log_Println_run line w :
  log_Println line w = (extend w [line] [] [] [], Returns tt).
Proof. unfold log_Println, extend. by rewrite !app_nil_r. Qed.

(** One step of a computation whose first action writes a line. *)
Ltac go_log :=
  rewrite (bind_returns _ _ _ _ _ (logger_write_run _ _ _ _)); cbv beta.
Ltac go_print :=
  rewrite (bind_returns _ _ _ _ _ (log_Println_run _ _)); cbv beta.

Lemma log_Fatalf_run {A} line w :
  log_Fatalf (A:=A) line w = (extend w [line] [] [] [], Exits 1).
Proof.
  unfold log_Fatalf, log_Printf.
  by rewrite (bind_returns _ _ _ _ _ (log_Println_run line w)).
Qed.

Lemma emit_all_run k l w :
  emit_all k l w = (extend w [] [] (map (emit k) l) [], Returns tt).
Proof.
  revert w. induction l as [|op l IH]; intros w; simpl.
  - by rewrite extend_nil.
  - rewrite (bind_returns _ _ _ _ _ (send_run _ w)), IH.
    by rewrite extend_extend.
Qed.

Lemma leave_run x w : leave x w = (w, exit_outcome x).
Proof. by destruct x. Qed.

Lemma run_handler_run k r w :
  run_handler k r w
  = (extend w [] [] (map (emit k) (ops r)) [], exit_outcome (exit r)).
Proof.
  unfold run_handler.
  by rewrite (bind_returns _ _ _ _ _ (emit_all_run k (ops r) w)), leave_run.
Qed.

(** ** The router, for every behaviour of the packages and the handlers *)

Section RouterFacts.

Context {decodeConfigureMonitoring :
           Decodable keptnv2.ConfigureMonitoringTriggeredEventData}
        {decodeMonaco : Decodable MonacoStartedEventData}.
Variable NewKeptn : Event → keptn.KeptnOpts → Call (option Keptn * error).
Variable ConfigureMonitoringHandler :
  Handler keptnv2.ConfigureMonitoringTriggeredEventData.
Variable MonacoHandler : Handler MonacoStartedEventData.

Abbreviation dispatch' := (dispatch ConfigureMonitoringHandler MonacoHandler).
Abbreviation selected_run' :=
  (selected_run ConfigureMonitoringHandler MonacoHandler).
Abbreviation after_first_check' :=
  (after_first_check ConfigureMonitoringHandler MonacoHandler).
Abbreviation processKeptnCloudEvent' :=
  (processKeptnCloudEvent NewKeptn ConfigureMonitoringHandler MonacoHandler).

Lemma parse_run {T} `{Decodable T} (event : Event) (zero : T) w :
  parseKeptnCloudEventPayload event zero w
  = match (DataAs event zero).2 with
    | Some e => (extend w ["Got Data Error: " +:+ e] [] [] [], Exits 1)
    | None => (w, Returns ((DataAs event zero).1, None))
    end.
Proof.
  unfold parseKeptnCloudEventPayload.
  destruct (DataAs event zero) as [d [e|]]; simpl; [|done].
  by rewrite (bind_exits _ _ _ _ _ (log_Fatalf_run _ w)).
Qed.

Lemma call_run k c r w :
  (record_call c ;; run_handler k r) w
  = (extend w [] [] (map (emit k) (ops r)) [c], exit_outcome (exit r)).
Proof.
  rewrite (bind_returns _ _ _ _ _ (record_call_run c w)), run_handler_run.
  by rewrite extend_extend.
Qed.

Lemma bind_at_site (m : Go error) site w w' o :
  m w = (w', o) → (r ← m ; mret (site, r)) w = (w', at_site site o).
Proof. intros E. unfold mbind, Go_bind. rewrite E. by destruct o. Qed.

Lemma dispatch_run logger k event w :
  dispatch' logger k event w
  = match payload_error event with
    | Some e =>
        (extend w ["Got Data Error: " +:+ e] [entry_dispatch logger event]
           [] [], Exits 1)
    | None =>
        match selected_run' k event, selected_call k event with
        | Some run, Some call =>
            (extend w [] [entry_dispatch logger event]
               (map (emit k) (ops run)) [call],
             at_site (dispatch_site event) (exit_outcome (exit run)))
        | _, _ =>
            (extend w [] [entry_dispatch logger event] [] [],
             Returns (Line206, None))
        end
    end.
Proof.
  unfold dispatch, payload_error, selected_run,
    selected_call, entry_dispatch, dispatch_site.
  repeat case_decide.
  - unfold logger_Info.
    go_log.
    unfold mbind at 1, Go_bind at 1. rewrite parse_run.
    destruct (DataAs event _) as [d [e|]]; simpl.
    + by rewrite extend_extend.
    + unfold HandleConfigureMonitoringTriggeredEvent.
      rewrite (bind_at_site _ _ _ _ _ (call_run _ _ _ _)).
      by rewrite extend_extend.
  - unfold logger_Info.
    go_log.
    unfold mbind at 1, Go_bind at 1. rewrite parse_run.
    destruct (DataAs event _) as [d [e|]]; simpl.
    + by rewrite extend_extend.
    + unfold HandleMonacoTriggeredEvent.
      rewrite (bind_at_site _ _ _ _ _ (call_run _ _ _ _)).
      by rewrite extend_extend.
  - unfold logger_Error.
    by go_log.
Qed.

Lemma process_first_check event w :
  processKeptnCloudEvent' event w
  = let w1 := extend w [] [entry_init event] [] [] in
    match NewKeptn event (keptnOptions w) with
    | Panicked msg => (w1, Panics msg)
    | Returned (_, Some e) =>
        (w1, Returns (Line64,
                      Some ("Could not create Keptn Handler: " +:+ e)))
    | Returned (myKeptn, None) =>
        after_first_check' (logger_of event) myKeptn None event w1
    end.
Proof.
  unfold processKeptnCloudEvent, logger_Info.
  go_log.
  unfold mbind at 1, Go_bind at 1, get_keptnOptions. simpl.
  unfold mbind at 1, Go_bind at 1.
  by destruct (NewKeptn event (keptnOptions w)) as [[myKeptn [e|]]|msg].
Qed.

Lemma process_run event w :
  processKeptnCloudEvent' event w
  = let w1 := extend w [] [entry_init event] [] [] in
    match NewKeptn event (keptnOptions w) with
    | Panicked msg => (w1, Panics msg)
    | Returned (_, Some e) =>
        (w1, Returns (Line64,
                      Some ("Could not create Keptn Handler: " +:+ e)))
    | Returned (None, None) =>
        (w1, Panics "invalid memory address or nil pointer dereference")
    | Returned (Some k, None) =>
        dispatch' (logger_of event) k event
          (extend w [] [entry_init event; entry_gotEvent k event] [] [])
    end.
Proof.
  rewrite process_first_check. cbv zeta.
  destruct (NewKeptn event (keptnOptions w)) as [[[k|] [e|]]|msg]; try done.
  unfold after_first_check, deref, logger_Info.
  rewrite (bind_returns (mret k) _ _ _ k eq_refl).
  go_log.
  by rewrite extend_extend.
Qed.


Lemma emitted_extend w lines entries events calls :
  emitted w (extend w lines entries events calls) = events.
Proof. unfold emitted, extend. simpl. by rewrite drop_app_length. Qed.

Lemma logged_extend w lines entries events calls :
  logged w (extend w lines entries events calls) = entries.
Proof. unfold logged, extend. simpl. by rewrite drop_app_length. Qed.

Lemma called_extend w lines entries events calls :
  called w (extend w lines entries events calls) = calls.
Proof. unfold called, extend. simpl. by rewrite drop_app_length. Qed.

Create Rewrite HintDb observe.
#[local] Hint Rewrite emitted_extend logged_extend called_extend : observe.

Lemma registered_selected k event :
  registered (EventType event) →
  ∃ run call, selected_run' k event = Some run
              ∧ selected_call k event = Some call.
Proof.
  unfold registered, selected_run, selected_call.
  intros [E|E]; repeat case_decide; try done; eauto.
Qed.

Lemma unregistered_selected k event :
  ¬ registered (EventType event) →
  selected_run' k event = None ∧ payload_error event = None
  ∧ dispatch_site event = Line206.
Proof.
  unfold registered, selected_run, payload_error, dispatch_site.
  intros N. repeat case_decide; try done; exfalso; apply N; auto.
Qed.

(** An event for which [NewKeptn] delivers: the whole effect of the call. *)
Lemma process_accepted event w k :
  NewKeptn event (keptnOptions w) = Returned (Some k, None) →
  processKeptnCloudEvent' event w
  = let entries := [entry_init event; entry_gotEvent k event;
                    entry_dispatch (logger_of event) event] in
    match payload_error event with
    | Some e => (extend w ["Got Data Error: " +:+ e] entries [] [], Exits 1)
    | None =>
        match selected_run' k event, selected_call k event with
        | Some run, Some call =>
            (extend w [] entries (map (emit k) (ops run)) [call],
             at_site (dispatch_site event) (exit_outcome (exit run)))
        | _, _ => (extend w [] entries [] [], Returns (Line206, None))
        end
    end.
Proof.
  intros E. rewrite process_run, E. cbv zeta. rewrite dispatch_run.
  destruct (payload_error event) as [e|].
  - by rewrite extend_extend.
  - destruct (selected_run' k event), (selected_call k event);
      by rewrite extend_extend.
Qed.

(** The events a session emits are stamped with the id of the event the
    session is bound to and with its correlation id. *)
Lemma emit_triggered_id k l :
  Forall (λ o, outTriggeredID o = GetID (CloudEvent k)) (map (emit k) l).
Proof. induction l as [|[] l IH]; constructor; done. Qed.

Lemma emit_context k l :
  Forall (λ o, outKeptnContext o = KeptnContext k) (map (emit k) l).
Proof. induction l as [|[] l IH]; constructor; done. Qed.

Lemma Forall_List_filter {A} (P : A → Prop) (f : A → bool) l :
  Forall P l → Forall P (List.filter f l).
Proof.
  induction 1 as [|x l Hx Hl IH]; simpl; [constructor|].
  destruct (f x); [by constructor|done].
Qed.

Lemma finished_map_emit k l :
  List.filter is_finished (map (emit k) l)
  = map (emit k) (List.filter op_is_finished l).
Proof.
  induction l as [|[] l IH]; simpl; [done|done|]. by rewrite IH.
Qed.


(** Whatever happens to an event, everything it puts on the bus was emitted
    by the selected handler through its session. *)
Lemma emitted_by_handler event w :
  emitted w (processKeptnCloudEvent' event w).1 = []
  ∨ ∃ k run, NewKeptn event (keptnOptions w) = Returned (Some k, None)
             ∧ selected_run' k event = Some run
             ∧ emitted w (processKeptnCloudEvent' event w).1
               = map (emit k) (ops run).
Proof.
  destruct (NewKeptn event (keptnOptions w)) as [[[k|] [e|]]|msg] eqn:E;
    try (left; rewrite process_run, E; apply emitted_extend).
  rewrite (process_accepted _ _ _ E). cbv zeta.
  destruct (payload_error event); simpl; [left; apply emitted_extend|].
  destruct (selected_run' k event) as [run|] eqn:R;
    [|left; apply emitted_extend].
  destruct (selected_call k event); simpl; [|left; apply emitted_extend].
  right. exists k, run. by rewrite emitted_extend.
Qed.

(** ** Lifecycle events of an accepted event *)

(** C1 (as the code has it).  For every triggered envelope whose type is
    bound to a handler and that is accepted for processing ([NewKeptn]
    delivers a session bound to the envelope, the payload decodes), the
    handler is called exactly once and, on every exit path of the handler
    (success, handled failure, unexpected fault), the events put on the bus
    are exactly the events the handler emitted through its session, in
    order: the router adds none.  So the number of finished events is the
    number the handler emitted (exactly one if and only if the handler
    emitted exactly one), and every event is correlated to the triggering
    event's id. *)
Theorem finished_events_are_the_handlers event w k :
  registered (EventType event) →
  NewKeptn event (keptnOptions w) = Returned (Some k, None) →
  CloudEvent k = event →
  payload_error event = None →
  ∃ run call,
    selected_run' k event = Some run
    ∧ selected_call k event = Some call
    ∧ let out := processKeptnCloudEvent' event w in
      out.2 = at_site (dispatch_site event) (exit_outcome (exit run))
      ∧ called w out.1 = [call]
      ∧ emitted w out.1 = map (emit k) (ops run)
      ∧ length (List.filter is_finished (emitted w out.1))
        = length (List.filter op_is_finished (ops run))
      ∧ Forall (λ o, outTriggeredID o = GetID event) (emitted w out.1).
Proof.
  intros Hreg Hk Hbound Hpay.
  destruct (registered_selected k event Hreg) as (run & call & Hrun & Hcall).
  exists run, call. split; [done|]. split; [done|].
  cbv zeta. rewrite (process_accepted _ _ _ Hk), Hpay, Hrun, Hcall.
  cbv zeta. simpl. autorewrite with observe.
  repeat split; try done.
  - by rewrite finished_map_emit, length_map.
  - rewrite <- Hbound. apply emit_triggered_id.
Qed.

(** C2 (as the code has it).  For every triggered envelope dispatched to a
    registered handler: when the handler returns an error, the router
    returns that same error to its caller; when the handler faults, the
    panic unwinds through the router.  In both cases the router writes no
    error entry to the log and emits no event of its own: the bus holds what
    the handler had emitted before it failed. *)
Theorem handler_failure_is_passed_on event w k :
  registered (EventType event) →
  NewKeptn event (keptnOptions w) = Returned (Some k, None) →
  payload_error event = None →
  ∃ run,
    selected_run' k event = Some run
    ∧ let out := processKeptnCloudEvent' event w in
      (∀ err, exit run = HandledFailure err →
              out.2 = Returns (dispatch_site event, Some err))
      ∧ (∀ msg, exit run = UnexpectedFault msg → out.2 = Panics msg)
      ∧ emitted w out.1 = map (emit k) (ops run)
      ∧ logged w out.1 = [entry_init event; entry_gotEvent k event;
                          entry_dispatch (logger_of event) event]
      ∧ List.filter is_error_entry (logged w out.1) = [].
Proof.
  intros Hreg Hk Hpay.
  destruct (registered_selected k event Hreg) as (run & call & Hrun & Hcall).
  exists run. split; [done|].
  cbv zeta. rewrite (process_accepted _ _ _ Hk), Hpay, Hrun, Hcall.
  cbv zeta. simpl. autorewrite with observe.
  repeat split; try done.
  - by intros err ->.
  - by intros msg ->.
  - unfold entry_dispatch. destruct Hreg as [E|E]; repeat case_decide; done.
Qed.

(** A payload that does not decode, for a registered type: [log.Fatalf]
    ends the process before the handler is called. *)
Lemma payload_mismatch_exits event w k e :
  NewKeptn event (keptnOptions w) = Returned (Some k, None) →
  payload_error event = Some e →
  let out := processKeptnCloudEvent' event w in
  out.2 = Exits 1
  ∧ stdlog out.1 = stdlog w ++ ["Got Data Error: " +:+ e]
  ∧ called w out.1 = [] ∧ emitted w out.1 = [].
Proof.
  intros Hk Hpay. cbv zeta. rewrite (process_accepted _ _ _ Hk), Hpay.
  cbv zeta. simpl. by autorewrite with observe.
Qed.

(** C4 (as the code has it).  For every envelope whose type matches no
    registered binding and for which [NewKeptn] delivers the Keptn object,
    no handler is called, nothing is emitted, the event is logged
    ("Unhandled Keptn Cloud Event: <type>", error level) and the function
    returns [nil] to the transport layer, through line 206. *)
Theorem unowned_type_is_dropped event w k :
  ¬ registered (EventType event) →
  NewKeptn event (keptnOptions w) = Returned (Some k, None) →
  let out := processKeptnCloudEvent' event w in
  out.2 = Returns (Line206, None)
  ∧ called w out.1 = []
  ∧ emitted w out.1 = []
  ∧ stdlog out.1 = stdlog w
  ∧ logged w out.1
    = [entry_init event; entry_gotEvent k event;
       keptn.mkLogEntry keptn.ERROR (logger_of event)
         ("Unhandled Keptn Cloud Event: " +:+ EventType event)].
Proof.
  intros Hreg Hk.
  destruct (unregistered_selected k event Hreg) as (Hrun & Hpay & _).
  cbv zeta. rewrite (process_accepted _ _ _ Hk), Hpay, Hrun.
  cbv zeta. simpl. autorewrite with observe.
  unfold extend; simpl. rewrite app_nil_r.
  repeat split; try done.
  unfold entry_dispatch, registered in *.
  repeat case_decide; try done; exfalso; apply Hreg; auto.
Qed.

(** When [NewKeptn] returns an error the function returns an error to the
    transport layer, whatever the event type. *)
Lemma NewKeptn_error_is_returned event w p e :
  NewKeptn event (keptnOptions w) = Returned (p, Some e) →
  let out := processKeptnCloudEvent' event w in
  out.2 = Returns (Line64, Some ("Could not create Keptn Handler: " +:+ e))
  ∧ called w out.1 = [] ∧ emitted w out.1 = [].
Proof.
  intros Hk. cbv zeta. rewrite process_run, Hk. cbv zeta.
  destruct p; simpl; by autorewrite with observe.
Qed.

(** C5.  For every triggered envelope carrying the correlation id [c] in
    its "shkeptncontext" extension, every event emitted for it, started or
    finished, carries [c] unchanged (the session owning the correlation
    context extracted from its envelope, as the spec has it). *)
Theorem correlation_id_is_propagated event w c :
  Extensions event !! "shkeptncontext" = Some (ExtString c) →
  (∀ k e, NewKeptn event (keptnOptions w) = Returned (Some k, e) →
          KeptnContext k = (ExtensionAs event "shkeptncontext" "").1) →
  let out := processKeptnCloudEvent' event w in
  Forall (λ o, outKeptnContext o = c)
    (List.filter is_started (emitted w out.1))
  ∧ Forall (λ o, outKeptnContext o = c)
      (List.filter is_finished (emitted w out.1)).
Proof.
  intros Hext Hsession. cbv zeta.
  assert (Forall (λ o, outKeptnContext o = c)
            (emitted w (processKeptnCloudEvent' event w).1)) as Hall.
  { destruct (emitted_by_handler event w) as [->|(k & run & Hk & _ & ->)];
      [constructor|].
    assert (KeptnContext k = c) as <-.
    { rewrite (Hsession _ _ Hk). unfold ExtensionAs. by rewrite Hext. }
    apply emit_context. }
  split; by apply Forall_List_filter.
Qed.

(** ** Correlation context *)

(** C7.  Extraction of the correlation context is total: the logger built
    on lines 56-58 always exists, carries the event id and the service name,
    and carries the "shkeptncontext" extension when the envelope has it and
    the empty string when it has not.  A missing id does not stop the
    event: the first log line is written with that context and, whenever
    [NewKeptn] delivers, the call goes on to [dispatch]. *)
Theorem missing_correlation_id_does_not_block event w :
  let logger := logger_of event in
  let out := processKeptnCloudEvent' event w in
  (Extensions event !! "shkeptncontext" = None →
   keptn.logKeptnContext logger = "")
  ∧ (∀ c, Extensions event !! "shkeptncontext" = Some (ExtString c) →
          keptn.logKeptnContext logger = c)
  ∧ keptn.logEventID logger = GetID event
  ∧ keptn.logServiceName logger = ServiceName
  ∧ take 1 (logged w out.1) = [entry_init event]
  ∧ (∀ k, NewKeptn event (keptnOptions w) = Returned (Some k, None) →
          out = dispatch' logger k event
                  (extend w [] [entry_init event; entry_gotEvent k event]
                     [] [])).
Proof.
  cbv zeta. unfold logger_of at 1 2 3 4, ExtensionAs. simpl.
  split; [by intros ->|]. split; [by intros c ->|].
  split; [done|]. split; [done|]. split.
  - destruct (NewKeptn event (keptnOptions w)) as [[[k|] [e|]]|msg] eqn:E;
      try (rewrite process_run, E; cbv beta iota zeta delta [fst snd];
           by rewrite logged_extend).
    rewrite (process_accepted _ _ _ E). cbv zeta.
    destruct (payload_error event); [simpl; by rewrite logged_extend|].
    destruct (selected_run' k event), (selected_call k event);
      simpl; by rewrite logged_extend.
  - intros k E. by rewrite process_run, E.
Qed.

(** ** The second check of [err] *)

Lemma dispatch_site_not_71 event : dispatch_site event ≠ Line71.
Proof. unfold dispatch_site. by repeat case_decide. Qed.

(** Taken by itself, the branch of line 69 is live: entered with an error it
    logs it and returns it through line 71. *)
Lemma second_check_returns_error logger k e event w :
  after_first_check' logger (Some k) (Some e) event w
  = (extend w []
       [keptn.mkLogEntry keptn.INFO logger
          (Sprintf_gotEvent (EventType event) (KeptnContext k) (GetID event));
        keptn.mkLogEntry keptn.ERROR logger
          ("failed to parse incoming cloudevent: " +:+ e)] [] [],
     Returns (Line71, Some e)).
Proof.
  unfold after_first_check, deref, logger_Info, logger_Error.
  rewrite (bind_returns (mret k) _ _ _ k eq_refl).
  go_log.
  go_log.
  by rewrite extend_extend.
Qed.

(** C10.  The second check of [err] (line 69) never fires: no call returns
    through line 71, no call writes the "failed to parse incoming
    cloudevent" entry, and the code after the first check is only ever
    entered with [err = nil], a non-nil error having returned through
    line 64. *)
Theorem second_error_check_is_dead event w :
  let out := processKeptnCloudEvent' event w in
  let w1 := extend w [] [entry_init event] [] [] in
  returned_at out.2 ≠ Some Line71
  ∧ Forall (λ entry, ∀ e, keptn.entryMessage entry
                          ≠ "failed to parse incoming cloudevent: " +:+ e)
      (logged w out.1)
  ∧ ∀ myKeptn err,
      NewKeptn event (keptnOptions w) = Returned (myKeptn, err) →
      match err with
      | Some e =>
          out = (w1, Returns (Line64,
                       Some ("Could not create Keptn Handler: " +:+ e)))
      | None =>
          out = after_first_check' (logger_of event) myKeptn None event w1
      end.
Proof.
  cbv zeta. split; [|split].
  - destruct (NewKeptn event (keptnOptions w)) as [[[k|] [e|]]|msg] eqn:E;
      try (rewrite process_run, E; by cbv beta iota zeta delta [fst snd]).
    rewrite (process_accepted _ _ _ E). cbv zeta.
    destruct (payload_error event); [done|].
    destruct (selected_run' k event) as [run|],
             (selected_call k event); try done.
    simpl. pose proof (dispatch_site_not_71 event).
    destruct (exit_outcome (exit run)); simpl; congruence.
  - assert (∀ e, keptn.entryMessage (entry_dispatch (logger_of event) event)
                 ≠ "failed to parse incoming cloudevent: " +:+ e) as Hd.
    { intros e. unfold entry_dispatch. by repeat case_decide. }
    destruct (NewKeptn event (keptnOptions w)) as [[[k|] [e|]]|msg] eqn:E;
      try (rewrite process_run, E; cbv beta iota zeta delta [fst snd];
           rewrite logged_extend; by repeat constructor).
    rewrite (process_accepted _ _ _ E). cbv zeta.
    destruct (payload_error event);
      [simpl; rewrite logged_extend; by repeat constructor|].
    destruct (selected_run' k event), (selected_call k event);
      simpl; rewrite logged_extend; by repeat constructor.
  - intros myKeptn err E. rewrite process_first_check, E. by destruct err.
Qed.
End RouterFacts.

(** ** Configuration and start-up *)

Section StartupFacts.

Variable ParseInt : string → option Z.
Variable NewHTTP : string → Z → error.
Variable NewClient : string → Z → error.
Variable StartReceiver : string → Z → Go error.

Lemma configure_keptnOptions_run env w :
  configure_keptnOptions env w
  = (mkWorld
       (keptn.mkKeptnOpts
          (if decide (Env env = "local") then true
           else keptn.UseLocalFileSystem (keptnOptions w))
          (ConfigurationServiceUrl env))
       (stdlog w ++
        if decide (Env env = "local")
        then ["env=local: Running with local filesystem to fetch resources"]
        else [])
       (keptnlog w) (bus w) (invocations w),
     Returns tt).
Proof.
  unfold configure_keptnOptions, mbind, Go_bind, mret, Go_ret,
    get_keptnOptions, set_keptnOptions, log_Println.
  case_decide; simpl; [done|]. by rewrite app_nil_r.
Qed.

(** Once the options are set and the client is built, [_main] hands over to
    the receiver on the configured path and port. *)
Lemma main_starts_receiver args env w :
  NewHTTP (Path env) (Port env) = None →
  NewClient (Path env) (Port env) = None →
  _main NewHTTP NewClient StartReceiver args env w
  = (r ← StartReceiver (Path env) (Port env) ;
     log_Fatalf (A:=unit) (default "<nil>" r) ;; mret 0%Z)
      (extend (configure_keptnOptions env w).1
         ["Starting monaco-service...";
          "    on Port = " +:+ pretty (Port env) +:+ "; Path=" +:+ Path env;
          "Creating new http handler"; "Starting receiver"] [] [] []).
Proof.
  intros Hhttp Hclient. unfold _main, log_Printf.
  rewrite (bind_returns _ _ _ _ tt (configure_keptnOptions_run env w)).
  rewrite configure_keptnOptions_run. cbv beta. simpl fst.
  go_print.
  go_print.
  go_print.
  rewrite Hhttp, Hclient.
  go_print.
  by rewrite !extend_extend.
Qed.

(** C9.  With [RCV_PORT], [RCV_PATH] and [ENV] unset, the configuration is
    port 8080, path "/" and mode "local"; [_main] then selects the local
    file system and starts the receiver on that path and port.  In general
    [_main] selects the local file system exactly when the mode is "local",
    and always takes the configuration-service URL from the configuration. *)
Theorem configuration_defaults (environ : gmap string string) args w :
  ParseInt "8080" = Some 8080%Z →
  environ !! "RCV_PORT" = None →
  environ !! "RCV_PATH" = None →
  environ !! "ENV" = None →
  ∃ env,
    envconfig_Process ParseInt environ = inl env
    ∧ Port env = 8080%Z ∧ Path env = "/" ∧ Env env = "local"
    ∧ ConfigurationServiceUrl env
      = default "" (environ !! "CONFIGURATION_SERVICE")
    ∧ keptnOptions (configure_keptnOptions env w).1
      = keptn.mkKeptnOpts true (ConfigurationServiceUrl env)
    ∧ (NewHTTP "/" 8080%Z = None → NewClient "/" 8080%Z = None →
       ∃ w2, keptnOptions w2
             = keptn.mkKeptnOpts true (ConfigurationServiceUrl env)
             ∧ _main NewHTTP NewClient StartReceiver args env w
               = (r ← StartReceiver "/" 8080%Z ;
                  log_Fatalf (A:=unit) (default "<nil>" r) ;; mret 0%Z) w2)
    ∧ ∀ env' : envConfig,
        keptn.ConfigurationServiceURL
          (keptnOptions (configure_keptnOptions env' w).1)
        = ConfigurationServiceUrl env'
        ∧ (keptn.UseLocalFileSystem (keptnOptions w) = false →
           (keptn.UseLocalFileSystem
              (keptnOptions (configure_keptnOptions env' w).1) = true
            ↔ Env env' = "local")).
Proof.
  intros Hparse Hport Hpath Henv.
  eexists. split.
  { unfold envconfig_Process, field_value. simpl.
    rewrite Hport, Hpath, Henv. simpl. rewrite Hparse. reflexivity. }
  simpl. repeat split; try done.
  - by case_match.
  - intros Hhttp Hclient. eexists. split; cycle 1.
    + exact (main_starts_receiver args (mkEnvConfig _ _ _ _) w Hhttp Hclient).
    + rewrite configure_keptnOptions_run. simpl. by repeat case_decide.
  - by rewrite configure_keptnOptions_run.
  - rewrite configure_keptnOptions_run. simpl.
    case_decide; [done|congruence].
  - intros E. rewrite configure_keptnOptions_run. simpl. by case_decide.
Qed.

End StartupFacts.

(** * Further properties of the code *)

(** The type names of the other phases end differently from every
    triggered type. *)
Lemma chars_app s1 s2 : chars (s1 +:+ s2) = chars s1 ++ chars s2.
Proof. induction s1 as [|c s1 IH]; simpl; [done|]. by rewrite IH. Qed.

Lemma ends_differently (a b ending whole : string) :
  (∀ l, reverse (chars ending) ++ l ≠ reverse (chars whole)) →
  a +:+ b +:+ ending ≠ whole.
Proof.
  intros Hends E. apply (f_equal chars) in E. rewrite !chars_app in E.
  apply (f_equal reverse) in E. rewrite !reverse_app in E.
  rewrite <- (assoc_L (++)) in E. by apply Hends in E.
Qed.

Lemma other_phases_not_registered task :
  ¬ registered (keptnv2.GetStartedEventType task)
  ∧ ¬ registered (keptnv2.GetFinishedEventType task)
  ∧ ¬ registered (keptnv2.GetStatusChangedEventType task).
Proof.
  unfold registered, keptnv2.GetStartedEventType, keptnv2.GetFinishedEventType,
    keptnv2.GetStatusChangedEventType.
  repeat split; intros [E|E]; revert E;
    apply ends_differently; intros l; by vm_compute.
Qed.

(** ** The router *)

Section RouterCoverage.

Context {decodeConfigureMonitoring :
           Decodable keptnv2.ConfigureMonitoringTriggeredEventData}
        {decodeMonaco : Decodable MonacoStartedEventData}.
Variable NewKeptn : Event → keptn.KeptnOpts → Call (option Keptn * error).
Variable ConfigureMonitoringHandler :
  Handler keptnv2.ConfigureMonitoringTriggeredEventData.
Variable MonacoHandler : Handler MonacoStartedEventData.

Abbreviation router :=
  (processKeptnCloudEvent NewKeptn ConfigureMonitoringHandler MonacoHandler).
Abbreviation chosen_run :=
  (selected_run ConfigureMonitoringHandler MonacoHandler).

Abbreviation course :=
  (Course NewKeptn ConfigureMonitoringHandler MonacoHandler).

(** Every call takes one of the courses. *)
Lemma router_course event w : course event w (router event w).
Proof.
  destruct (NewKeptn event (keptnOptions w)) as [[[k|] [e|]]|msg] eqn:E.
  - rewrite process_run, E. by eapply KeptnFailed.
  - rewrite (process_accepted _ _ _ _ _ _ E). cbv zeta.
    destruct (decide (registered (EventType event))) as [R|R].
    + destruct (registered_selected ConfigureMonitoringHandler MonacoHandler
                  k event R) as (run & call & Hrun & Hcall).
      rewrite Hrun, Hcall.
      destruct (payload_error event) as [e|] eqn:P.
      * by eapply PayloadRejected.
      * by eapply Handled.
    + destruct (unregistered_selected ConfigureMonitoringHandler
                  MonacoHandler k event R) as (-> & -> & _).
      by eapply Dropped.
  - rewrite process_run, E. by eapply KeptnFailed.
  - rewrite process_run, E. by eapply KeptnNil.
  - rewrite process_run, E. by eapply KeptnPanicked.
Qed.


(** X1.  Whatever the event, the router only appends to the logs, the bus
    and the call record, calls at most one handler, and leaves the package
    variable [keptnOptions] as it found it. *)
Theorem router_only_appends event w :
  ∃ lines entries events calls,
    (router event w).1 = extend w lines entries events calls
    ∧ keptnOptions (router event w).1 = keptnOptions w
    ∧ length calls ≤ 1.
Proof.
  destruct (router_course event w); simpl; repeat eexists; simpl; lia.
Qed.

(** X2.  A handler is called at most once per event, and when it is, it is
    the handler bound to the event's type, called with the Keptn object
    [NewKeptn] returned, the event itself, and a payload whose decoding
    returned no error: no handler ever sees a payload that failed to
    decode. *)
Theorem handler_call_is_typed event w :
  called w (router event w).1 = []
  ∨ ∃ k call,
      NewKeptn event (keptnOptions w) = Returned (Some k, None)
      ∧ called w (router event w).1 = [call]
      ∧ match call with
        | CallConfigureMonitoring k' e d =>
            k' = k ∧ e = event
            ∧ EventType event
              = keptnv2.GetTriggeredEventType
                  keptnv2.ConfigureMonitoringTaskName
            ∧ DataAs event keptnv2.ConfigureMonitoringTriggeredEventData_zero
              = (d, None)
        | CallMonaco k' e d =>
            k' = k ∧ e = event
            ∧ EventType event = keptnv2.GetTriggeredEventType MonacoEvent
            ∧ DataAs event MonacoStartedEventData_zero = (d, None)
        end.
Proof.
  destruct (router_course event w)
    as [| | | |k run call Hk Hreg Hpay Hrun Hcall|];
    simpl; rewrite called_extend; try (by left).
  right. exists k, call. split; [done|]. split; [done|].
  unfold selected_call in Hcall. unfold payload_error in Hpay.
  repeat case_decide; try done; injection Hcall as <-;
    repeat split; try done;
    by destruct (DataAs event _) as [d err]; simpl in *; subst.
Qed.

(** X3.  When the router returns a non-nil error to the transport layer,
    either [NewKeptn] failed and the error is its message behind "Could not
    create Keptn Handler: ", returned at line 64, or the selected handler
    returned that very error. *)
Theorem returned_error_provenance event w e :
  returned_error (router event w).2 = Some (Some e) →
  (∃ p e', NewKeptn event (keptnOptions w) = Returned (p, Some e')
           ∧ e = "Could not create Keptn Handler: " +:+ e'
           ∧ returned_at (router event w).2 = Some Line64)
  ∨ (∃ k run, NewKeptn event (keptnOptions w) = Returned (Some k, None)
              ∧ chosen_run k event = Some run
              ∧ exit run = HandledFailure e).
Proof.
  destruct (router_course event w)
    as [|p e' Hk| | |k run call Hk _ _ Hrun _|];
    simpl; try done.
  - intros [= <-]. left. by exists p, e'.
  - destruct (exit run) eqn:X; simpl; try done.
    intros [= <-]. right. by exists k, run.
Qed.

(** X4.  The router ends the process only in one way: with exit status 1,
    for an event of a registered type that [NewKeptn] accepted and whose
    typed payload decoding returned an error; no handler was called and
    nothing was emitted. *)
Theorem exit_provenance event w c :
  (router event w).2 = Exits c →
  c = 1%Z
  ∧ registered (EventType event)
  ∧ (∃ k, NewKeptn event (keptnOptions w) = Returned (Some k, None))
  ∧ (∃ e, payload_error event = Some e
          ∧ stdlog (router event w).1
            = stdlog w ++ ["Got Data Error: " +:+ e])
  ∧ called w (router event w).1 = []
  ∧ emitted w (router event w).1 = [].
Proof.
  destruct (router_course event w)
    as [| | |k e Hk Hreg Hpay|k run ? ? ? ? ? ?|];
    simpl; try done.
  - intros [= <-]. rewrite called_extend, emitted_extend.
    repeat split; eauto.
  - by destruct (exit run).
Qed.

(** X5.  A panic leaves the router only when [NewKeptn] itself panicked,
    when [NewKeptn] returned a nil pointer together with a nil error
    (dereferenced at line 67), or when the selected handler faulted, with
    the handler's own message.  In the first two cases no handler was
    called. *)
Theorem panic_provenance event w msg :
  (router event w).2 = Panics msg →
  (NewKeptn event (keptnOptions w) = Panicked msg
   ∧ called w (router event w).1 = [])
  ∨ (NewKeptn event (keptnOptions w) = Returned (None, None)
     ∧ called w (router event w).1 = [])
  ∨ (∃ k run, NewKeptn event (keptnOptions w) = Returned (Some k, None)
              ∧ payload_error event = None
              ∧ chosen_run k event = Some run
              ∧ exit run = UnexpectedFault msg).
Proof.
  destruct (router_course event w)
    as [msg' Hk| |Hk| |k run call Hk _ Hpay Hrun _|]; simpl; try done.
  - intros [= <-]. left. by rewrite called_extend.
  - intros _. right. left. by rewrite called_extend.
  - destruct (exit run) eqn:X; simpl; try done.
    intros [= <-]. right. right. by exists k, run.
Qed.

(** X6.  When [NewKeptn] returns an error, the call ends at line 64 after
    one log entry, whatever the event type and the payload: the payload is
    not decoded (so the process is not ended), no handler is called, and the
    pointer returned next to the error is not used. *)
Theorem keptn_creation_failure_short_circuits event w p e :
  NewKeptn event (keptnOptions w) = Returned (p, Some e) →
  router event w
  = (extend w [] [entry_init event] [] [],
     Returns (Line64, Some ("Could not create Keptn Handler: " +:+ e))).
Proof.
  intros Hk.
  destruct (router_course event w)
    as [? Hk'|p' e' Hk'|Hk'|k ? Hk'|k ? ? Hk'|k Hk'];
    rewrite Hk in Hk'; try done.
  by injection Hk' as _ <-.
Qed.

(** X7.  Only the triggered phase is dispatched: an event of a started,
    finished or status.changed type of any task, the service's own tasks
    included, falls through the [switch]; when [NewKeptn] accepts it, no
    handler is called, nothing is emitted and [nil] is returned at
    line 206. *)
Theorem only_triggered_phase_is_dispatched task event w k :
  EventType event = keptnv2.GetStartedEventType task
  ∨ EventType event = keptnv2.GetFinishedEventType task
  ∨ EventType event = keptnv2.GetStatusChangedEventType task →
  NewKeptn event (keptnOptions w) = Returned (Some k, None) →
  (router event w).2 = Returns (Line206, None)
  ∧ called w (router event w).1 = []
  ∧ emitted w (router event w).1 = [].
Proof.
  intros Hphase Hk.
  assert (¬ registered (EventType event)) as Hreg.
  { pose proof (other_phases_not_registered task) as (H1 & H2 & H3).
    by destruct Hphase as [->|[->| ->]]. }
  destruct (router_course event w) as [? Hk'|? ? Hk'|Hk'| | |k' _ _];
    try (rewrite Hk in Hk'; done); try done.
  simpl. by rewrite called_extend, emitted_extend.
Qed.

End RouterCoverage.

(** X8.  [parseKeptnCloudEventPayload] never returns an error: when the
    payload decodes it returns [nil] with the decoded structure and touches
    nothing; when decoding fails it writes "Got Data Error: ..." and ends
    the process with exit status 1, so the [return err] of line 44 never
    runs. *)
Theorem parse_never_returns_an_error {T} `{Decodable T}
    (event : Event) (data : T) w :
  (∃ d, DataAs event data = (d, None)
        ∧ parseKeptnCloudEventPayload event data w = (w, Returns (d, None)))
  ∨ (∃ d e, DataAs event data = (d, Some e)
            ∧ parseKeptnCloudEventPayload event data w
              = (extend w ["Got Data Error: " +:+ e] [] [] [], Exits 1)).
Proof.
  rewrite parse_run.
  destruct (DataAs event data) as [d [e|]]; simpl; [right|left]; eauto.
Qed.

(** ** Start-up *)

Section StartupCoverage.

Variable ParseInt : string → option Z.
Variable NewHTTP : string → Z → error.
Variable NewClient : string → Z → error.
Variable StartReceiver : string → Z → Go error.

Abbreviation start := (_main NewHTTP NewClient StartReceiver).
Abbreviation program := (main ParseInt NewHTTP NewClient StartReceiver).

(** The world in which [_main] creates the HTTP protocol and client. *)
Lemma main_until_NewHTTP args env w :
  start args env w
  = let w1 :=
      extend (configure_keptnOptions env w).1
        ["Starting monaco-service...";
         "    on Port = " +:+ pretty (Port env) +:+ "; Path=" +:+ Path env;
         "Creating new http handler"] [] [] [] in
    match NewHTTP (Path env) (Port env), NewClient (Path env) (Port env) with
    | Some e, _ | None, Some e =>
        (extend w1 ["failed to create client, " +:+ e] [] [] [], Exits 1%Z)
    | None, None =>
        (r ← StartReceiver (Path env) (Port env) ;
         log_Fatalf (A:=unit) (default "<nil>" r) ;; mret 0%Z)
          (extend w1 ["Starting receiver"] [] [] [])
    end.
Proof.
  unfold _main, log_Printf.
  rewrite (bind_returns _ _ _ _ tt (configure_keptnOptions_run env w)).
  rewrite configure_keptnOptions_run. cbv beta zeta. simpl fst.
  do 3 go_print.
  destruct (NewHTTP (Path env) (Port env)) as [e|].
  { by rewrite log_Fatalf_run, !extend_extend. }
  destruct (NewClient (Path env) (Port env)) as [e|].
  { by rewrite log_Fatalf_run, !extend_extend. }
  go_print. by rewrite !extend_extend.
Qed.

Lemma receiver_then_fatal path port w :
  (r ← StartReceiver path port ;
   log_Fatalf (A:=unit) (default "<nil>" r) ;; mret 0%Z) w
  = match StartReceiver path port w with
    | (w', Returns r) => (extend w' [default "<nil>" r] [] [] [], Exits 1%Z)
    | (w', Exits c) => (w', Exits c)
    | (w', Panics msg) => (w', Panics msg)
    end.
Proof.
  unfold mbind at 1, Go_bind at 1.
  destruct (StartReceiver path port w) as [w' [r|c|msg]]; try done.
  by rewrite (bind_exits _ _ _ _ _ (log_Fatalf_run _ w')).
Qed.

(** X9.  Neither [_main] nor [main] ever returns: the [return 0] of line
    259 and the [os.Exit] of line 222 are never reached.  The process ends
    through [log.Fatalf] / [log.Fatal] with exit status 1, or inside the
    receiver. *)
Theorem startup_never_returns environ args env w :
  (∀ code,
     (_main NewHTTP NewClient StartReceiver args env w).2 ≠ Returns code)
  ∧ (main ParseInt NewHTTP NewClient StartReceiver environ args w).2
    ≠ Returns tt.
Proof.
  assert (∀ env' w' code, (start args env' w').2 ≠ Returns code) as Hstart.
  { intros env' w' code. rewrite main_until_NewHTTP. cbv zeta.
    destruct (NewHTTP (Path env') (Port env')); [done|].
    destruct (NewClient (Path env') (Port env')); [done|].
    rewrite receiver_then_fatal.
    by destruct (StartReceiver _ _ _) as [? [?|?|?]]. }
  split; [apply Hstart|].
  unfold main. destruct (envconfig_Process ParseInt environ) as [env'|err].
  - unfold mbind, Go_bind. specialize (Hstart env' w).
    destruct (start args env' w) as [w' [code|c|msg]]; try done.
  - by rewrite log_Fatalf_run.
Qed.

(** X10.  When the receiver stops and returns, with an error or with
    [nil], the process logs what it returned ("<nil>" for no error) and
    exits with status 1. *)
Theorem receiver_stop_exits_with_1 args env w w' r :
  NewHTTP (Path env) (Port env) = None →
  NewClient (Path env) (Port env) = None →
  StartReceiver (Path env) (Port env)
    (extend (configure_keptnOptions env w).1
       ["Starting monaco-service...";
        "    on Port = " +:+ pretty (Port env) +:+ "; Path=" +:+ Path env;
        "Creating new http handler"; "Starting receiver"] [] [] [])
  = (w', Returns r) →
  start args env w = (extend w' [default "<nil>" r] [] [] [], Exits 1%Z).
Proof.
  intros Hhttp Hclient Hrun.
  rewrite main_until_NewHTTP, Hhttp, Hclient. cbv zeta.
  rewrite extend_extend, receiver_then_fatal. cbn [app]. by rewrite Hrun.
Qed.

(** X11.  When the HTTP protocol or the client cannot be created, [_main]
    logs "failed to create client, ..." and exits with status 1; the
    receiver is not started, and [keptnOptions] is already configured. *)
Theorem client_creation_failure_exits args env w e :
  NewHTTP (Path env) (Port env) = Some e
  ∨ (NewHTTP (Path env) (Port env) = None
     ∧ NewClient (Path env) (Port env) = Some e) →
  start args env w
  = (extend (configure_keptnOptions env w).1
       ["Starting monaco-service...";
        "    on Port = " +:+ pretty (Port env) +:+ "; Path=" +:+ Path env;
        "Creating new http handler";
        "failed to create client, " +:+ e] [] [] [],
     Exits 1%Z).
Proof.
  intros H. rewrite main_until_NewHTTP. cbv zeta.
  destruct H as [->|[-> ->]]; by rewrite extend_extend.
Qed.

(** X12.  When [RCV_PORT] is set to a string that is not an integer,
    [main] logs "Failed to process env var: ..." and exits with status 1
    before anything else happens: [keptnOptions] is untouched and nothing
    is started. *)
Theorem unparsable_port_exits (environ : gmap string string) args w v :
  environ !! "RCV_PORT" = Some v →
  ParseInt v = None →
  ∃ err,
    program environ args w
    = (extend w ["Failed to process env var: " +:+ err] [] [] [],
       Exits 1%Z).
Proof.
  intros Hport Hparse. eexists. unfold main, envconfig_Process, field_value.
  simpl. rewrite Hport, Hparse. apply log_Fatalf_run.
Qed.


End StartupCoverage.

(** ** The unit test *)

Section TestCoverage.

Context {decodeMonaco : Decodable MonacoStartedEventData}.
Variable ReadFile : string → string + string.
Variable Unmarshal_Event : string → Event + string.
Variable NewKeptn : Event → keptn.KeptnOpts → Call (option Keptn * error).
Variable MonacoHandler : Handler MonacoStartedEventData.

Abbreviation test :=
  (TestHandleMonacoTriggeredEvent ReadFile Unmarshal_Event NewKeptn
     MonacoHandler).
Abbreviation initialize :=
  (initializeTestObjects ReadFile Unmarshal_Event NewKeptn).

Lemma test_after_initialize w k event :
  initialize "test-events/monaco.triggered.json"
  = Returned (Some k, Some event, None) →
  test w
  = let decoded := DataAs event MonacoStartedEventData_zero in
    let run := MonacoHandler k event decoded.1 in
    let reported :=
      match decoded.2 with
      | Some _ => ["Error getting keptn event data"]
      | None => []
      end in
    (extend w [] [] (map (emit k) (ops run)) [CallMonaco k event decoded.1],
     match exit run with
     | Success => Returns reported
     | HandledFailure e => Returns (reported ++ ["Error: " +:+ e])
     | UnexpectedFault msg => Panics msg
     end).
Proof.
  intros Hinit. unfold TestHandleMonacoTriggeredEvent. rewrite Hinit.
  cbv zeta. simpl run_call.
  rewrite bind_mret. cbv beta iota. simpl deref_event. simpl deref.
  rewrite (bind_returns (mret event) _ _ _ event eq_refl).
  destruct (DataAs event MonacoStartedEventData_zero) as [d err].
  rewrite (bind_returns (mret k) _ _ _ k eq_refl).
  unfold HandleMonacoTriggeredEvent, mbind at 1, Go_bind at 1.
  rewrite call_run. simpl.
  destruct (exit (MonacoHandler k event d)), err; simpl; try done;
    by rewrite app_nil_r.
Qed.

Lemma initialize_objects f k event :
  initialize f = Returned (Some k, Some event, None)
  ↔ ∃ content, ReadFile f = inl content
               ∧ Unmarshal_Event content = inl event
               ∧ NewKeptn event (keptn.mkKeptnOpts true "")
                 = Returned (Some k, None).
Proof.
  unfold initializeTestObjects. split.
  - destruct (ReadFile f) as [content|e] eqn:Hread; [|done].
    destruct (Unmarshal_Event content) as [ev|e] eqn:Hparse; [|done].
    simpl. destruct (NewKeptn ev _) as [[p err]|msg] eqn:E; [|done].
    intros [= -> -> ->]. by exists content.
  - intros (content & -> & -> & H). simpl. by rewrite H.
Qed.

(** The test panics when initialization does. *)
Lemma test_after_panic w msg :
  initialize "test-events/monaco.triggered.json" = Panicked msg →
  test w = (w, Panics msg).
Proof.
  intros Hinit. unfold TestHandleMonacoTriggeredEvent. by rewrite Hinit.
Qed.

(** X15.  The test passes exactly when the event file is read and parsed,
    [NewKeptn] (called with the local file system switched on) returns a
    Keptn object and no error, the payload decodes, and the handler returns
    [nil].  What the handler emits plays no part: the test does not look at
    the lifecycle events. *)
Theorem test_passes_iff w :
  (test w).2 = Returns []
  ↔ ∃ content event k d,
      ReadFile "test-events/monaco.triggered.json" = inl content
      ∧ Unmarshal_Event content = inl event
      ∧ NewKeptn event (keptn.mkKeptnOpts true "") = Returned (Some k, None)
      ∧ DataAs event MonacoStartedEventData_zero = (d, None)
      ∧ exit (MonacoHandler k event d) = Success.
Proof.
  split.
  - destruct (initialize "test-events/monaco.triggered.json")
      as [[[[k|] [event|]] [e|]]|msg] eqn:Hinit;
      try (unfold TestHandleMonacoTriggeredEvent; rewrite Hinit; done).
    + rewrite (test_after_initialize _ _ _ Hinit). cbv zeta. simpl.
      apply initialize_objects in Hinit as (content & Hread & Hparse & Hk).
      destruct (DataAs event MonacoStartedEventData_zero) as [d [e|]] eqn:Hd;
        simpl; destruct (exit (MonacoHandler k event d)) eqn:Hexit;
        try done.
      intros _. by exists content, event, k, d.
    + unfold TestHandleMonacoTriggeredEvent. rewrite Hinit. simpl run_call.
      rewrite bind_mret. cbv beta iota. simpl deref_event.
      rewrite (bind_returns (mret event) _ _ _ event eq_refl).
      by destruct (DataAs event MonacoStartedEventData_zero).
  - intros (content & event & k & d & Hread & Hparse & Hk & Hd & Hexit).
    rewrite (test_after_initialize w k event).
    + cbv zeta. rewrite Hd. simpl. by rewrite Hexit.
    + apply initialize_objects. by exists content.
Qed.


(** X17.  When initialization returns an error (the file cannot be read,
    the event cannot be parsed, or [NewKeptn] fails), the test reports that
    one error and stops: the handler is not called and the world is
    untouched.  The error names the file ("Cant load <file>: ...") or the
    parse failure ("Error parsing: ..."), or is [NewKeptn]'s own. *)
Theorem test_stops_on_initialization_error w p incomingEvent e :
  initialize "test-events/monaco.triggered.json"
  = Returned (p, incomingEvent, Some e) →
  test w = (w, Returns [e])
  ∧ ((∃ err, ReadFile "test-events/monaco.triggered.json" = inr err
             ∧ e = "Cant load test-events/monaco.triggered.json: " +:+ err)
     ∨ (∃ content err,
          ReadFile "test-events/monaco.triggered.json" = inl content
          ∧ Unmarshal_Event content = inr err
          ∧ e = "Error parsing: " +:+ err)
     ∨ (∃ content event p,
          ReadFile "test-events/monaco.triggered.json" = inl content
          ∧ Unmarshal_Event content = inl event
          ∧ NewKeptn event (keptn.mkKeptnOpts true "")
            = Returned (p, Some e))).
Proof.
  intros Herr. split.
  - unfold TestHandleMonacoTriggeredEvent. by rewrite Herr.
  - unfold initializeTestObjects in Herr.
    destruct (ReadFile _) as [content|err] eqn:Hread.
    + destruct (Unmarshal_Event content) as [event|err] eqn:Hparse.
      * simpl in Herr.
        destruct (NewKeptn event _) as [[p' err]|msg] eqn:Hk; [|done].
        injection Herr as -> _ ->. right. right.
        by exists content, event, p.
      * injection Herr as _ _ <-. right. left. by exists content, err.
    + injection Herr as _ _ <-. left. by exists err.
Qed.

End TestCoverage.

(** ** The monaco scenario *)

Section ScenarioFacts.

Context {decodeConfigureMonitoring :
           Decodable keptnv2.ConfigureMonitoringTriggeredEventData}
        {decodeMonaco : Decodable MonacoStartedEventData}.
Variable NewKeptn : Event → keptn.KeptnOpts → Call (option Keptn * error).
Variable ConfigureMonitoringHandler :
  Handler keptnv2.ConfigureMonitoringTriggeredEventData.
Variable MonacoHandler : Handler MonacoStartedEventData.


End ScenarioFacts.

(** ** The router on concrete envelopes *)

Import Reference Examples.

(** The Keptn object of the reference model is bound to its envelope and
    owns the correlation id extracted from it. *)
Lemma Reference_NewKeptn_bound event opts k e :
  Reference.NewKeptn event opts = Returned (Some k, e) →
  KeptnContext k = (ExtensionAs event "shkeptncontext" "").1
  ∧ CloudEvent k = event.
Proof.
  unfold Reference.NewKeptn.
  destruct (Extensions event !! "shkeptncontext") as [[c|n|b]|]; try done;
    destruct (DataAs event keptnv2.EventData_zero) as [base [err|]];
    try done; by intros [= <- <-].
Qed.

(** C1, refuted as stated.  A registered handler that faults after its
    started event: the envelope was accepted, the panic leaves the router,
    and no finished event was emitted. *)
Lemma faulting_handler_leaves_no_finished_event :
  let out := processKeptnCloudEvent Reference.NewKeptn faults_after_started
               faults_after_started ev_monaco w0 in
  registered (EventType ev_monaco)
  ∧ Reference.NewKeptn ev_monaco (keptnOptions w0)
    = Returned (Some keptn_monaco, None)
  ∧ payload_error ev_monaco = None
  ∧ out.2 = Panics "boom"
  ∧ emitted w0 out.1 = [emit keptn_monaco (EmitStarted "monaco")]
  ∧ length (List.filter is_finished (emitted w0 out.1)) = 0
  ∧ length (List.filter is_finished (emitted w0 out.1)) ≠ 1.
Proof.
  cbv zeta. split; [by right|]. by vm_compute.
Qed.

(** The theorem at the monaco envelope and a handler that reports success:
    one finished event, correlated to "id-1". *)
Lemma finished_events_are_the_handlers_witness :
  registered (EventType ev_monaco)
  ∧ Reference.NewKeptn ev_monaco (keptnOptions w0)
    = Returned (Some keptn_monaco, None)
  ∧ CloudEvent keptn_monaco = ev_monaco
  ∧ payload_error ev_monaco = None
  ∧ length (List.filter is_finished
              (emitted w0
                 (processKeptnCloudEvent Reference.NewKeptn reports_success
                    reports_success ev_monaco w0).1)) = 1
  ∧ Forall (λ o, outTriggeredID o = "id-1")
      (emitted w0
         (processKeptnCloudEvent Reference.NewKeptn reports_success
            reports_success ev_monaco w0).1).
Proof.
  assert (registered (EventType ev_monaco)) as H1 by (right; reflexivity).
  assert (Reference.NewKeptn ev_monaco (keptnOptions w0)
          = Returned (Some keptn_monaco, None)) as H2
    by (vm_compute; reflexivity).
  assert (CloudEvent keptn_monaco = ev_monaco) as H3 by reflexivity.
  assert (payload_error ev_monaco = None) as H4 by (vm_compute; reflexivity).
  destruct (finished_events_are_the_handlers Reference.NewKeptn
              reports_success reports_success ev_monaco w0 keptn_monaco
              H1 H2 H3 H4)
    as (run & call & Hrun & _ & _ & _ & _ & Hlen & Hid).
  split; [exact H1|]. split; [exact H2|]. split; [exact H3|].
  split; [exact H4|]. split; [|exact Hid].
  rewrite Hlen. vm_compute in Hrun. injection Hrun as <-. reflexivity.
Defined.

(** C2, refuted as stated.  A registered handler that returns an error:
    the router returns that error to the transport layer, writes no error
    entry and emits no finished event. *)
Lemma failing_handler_error_reaches_transport :
  let out := processKeptnCloudEvent Reference.NewKeptn fails_silently
               fails_silently ev_monaco w0 in
  registered (EventType ev_monaco)
  ∧ out.2 = Returns (Line151, Some "monaco failed")
  ∧ List.filter is_error_entry (logged w0 out.1) = []
  ∧ List.filter (is_finished_with StatusErrored) (emitted w0 out.1) = []
  ∧ emitted w0 out.1 = [].
Proof.
  cbv zeta. split; [by right|]. by vm_compute.
Qed.

(** The theorem at the monaco envelope and the faulting handler. *)
Lemma handler_failure_is_passed_on_witness :
  registered (EventType ev_monaco)
  ∧ Reference.NewKeptn ev_monaco (keptnOptions w0)
    = Returned (Some keptn_monaco, None)
  ∧ payload_error ev_monaco = None
  ∧ (processKeptnCloudEvent Reference.NewKeptn faults_after_started
       faults_after_started ev_monaco w0).2 = Panics "boom".
Proof.
  assert (registered (EventType ev_monaco)) as H1 by (right; reflexivity).
  assert (Reference.NewKeptn ev_monaco (keptnOptions w0)
          = Returned (Some keptn_monaco, None)) as H2
    by (vm_compute; reflexivity).
  assert (payload_error ev_monaco = None) as H3 by (vm_compute; reflexivity).
  destruct (handler_failure_is_passed_on Reference.NewKeptn
              faults_after_started faults_after_started ev_monaco w0
              keptn_monaco H1 H2 H3)
    as (run & Hrun & _ & Hfault & _).
  split; [exact H1|]. split; [exact H2|]. split; [exact H3|].
  apply Hfault. vm_compute in Hrun. injection Hrun as <-. reflexivity.
Defined.

(** C3, on the code.  A configure-monitoring.triggered envelope whose
    [configureMonitoring] member is a string: [NewKeptn] accepts it, the
    typed decoding fails, and [log.Fatalf] ends the process (exit status 1)
    whatever the handlers are; no handler is called, no event is emitted. *)
Theorem payload_mismatch_terminates_process hcm hm w :
  let out := processKeptnCloudEvent Reference.NewKeptn hcm hm
               ev_configure_mismatch w in
  registered (EventType ev_configure_mismatch)
  ∧ out.2 = Exits 1
  ∧ (∃ e, stdlog out.1 = stdlog w ++ ["Got Data Error: " +:+ e])
  ∧ called w out.1 = []
  ∧ emitted w out.1 = [].
Proof.
  cbv zeta. split; [by left|].
  assert (Reference.NewKeptn ev_configure_mismatch (keptnOptions w)
          = Returned (Some (mkKeptn "ctx-2" ev_configure_mismatch
                     (keptnv2.mkEventData "p1" "" "" ∅ "" "" "")
                     (keptnOptions w)), None)) as Hk by reflexivity.
  assert (payload_error ev_configure_mismatch
          = Some "json: cannot unmarshal into Go value") as Hpay
    by (vm_compute; reflexivity).
  destruct (payload_mismatch_exits Reference.NewKeptn hcm hm
              ev_configure_mismatch w _ _ Hk Hpay)
    as (Hexit & Hlog & Hcalled & Hemitted).
  split; [exact Hexit|]. split; [by eexists|]. by split.
Qed.

(** C4, refuted as stated.  An envelope of a type the service does not
    own whose payload is a JSON array: [NewKeptn] fails and the function
    returns an error to the transport layer. *)
Lemma unowned_type_can_fail_the_transaction :
  let out := processKeptnCloudEvent Reference.NewKeptn succeeds_silently
               succeeds_silently ev_unknown_array w0 in
  EventType ev_unknown_array
    ≠ keptnv2.GetTriggeredEventType keptnv2.ConfigureMonitoringTaskName
  ∧ EventType ev_unknown_array ≠ keptnv2.GetTriggeredEventType MonacoEvent
  ∧ (∃ e, out.2 = Returns (Line64,
                           Some ("Could not create Keptn Handler: " +:+ e)))
  ∧ returned_error out.2 ≠ Some None.
Proof.
  cbv zeta. split; [by vm_compute|]. split; [by vm_compute|].
  split; [|by vm_compute].
  exists "json: cannot unmarshal into Go value". by vm_compute.
Qed.

(** The theorem at an unowned type with an object payload. *)
Lemma unowned_type_is_dropped_witness :
  ¬ registered (EventType ev_unknown)
  ∧ Reference.NewKeptn ev_unknown (keptnOptions w0)
    = Returned (Some keptn_unknown, None)
  ∧ (processKeptnCloudEvent Reference.NewKeptn reports_success
       reports_success ev_unknown w0).2 = Returns (Line206, None)
  ∧ called w0 (processKeptnCloudEvent Reference.NewKeptn reports_success
                 reports_success ev_unknown w0).1 = []
  ∧ emitted w0 (processKeptnCloudEvent Reference.NewKeptn reports_success
                  reports_success ev_unknown w0).1 = [].
Proof.
  assert (¬ registered (EventType ev_unknown)) as H1
    by (intros [E|E]; vm_compute in E; discriminate E).
  assert (Reference.NewKeptn ev_unknown (keptnOptions w0)
          = Returned (Some keptn_unknown, None)) as H2
    by (vm_compute; reflexivity).
  destruct (unowned_type_is_dropped Reference.NewKeptn reports_success
              reports_success ev_unknown w0 keptn_unknown H1 H2)
    as (Hout & Hcalled & Hemitted & _).
  split; [exact H1|]. split; [exact H2|]. split; [exact Hout|].
  split; [exact Hcalled|exact Hemitted].
Defined.

(** The theorem at the monaco envelope, context "ctx-1", and a handler that
    emits a started and a finished event. *)
Lemma correlation_id_is_propagated_witness :
  Extensions ev_monaco !! "shkeptncontext" = Some (ExtString "ctx-1")
  ∧ emitted w0 (processKeptnCloudEvent Reference.NewKeptn reports_success
                  reports_success ev_monaco w0).1
    = [emit keptn_monaco (EmitStarted "monaco");
       emit keptn_monaco (EmitFinished "monaco" StatusSucceeded "pass" "done")]
  ∧ Forall (λ o, outKeptnContext o = "ctx-1")
      (List.filter is_started
         (emitted w0 (processKeptnCloudEvent Reference.NewKeptn
                        reports_success reports_success ev_monaco w0).1))
  ∧ Forall (λ o, outKeptnContext o = "ctx-1")
      (List.filter is_finished
         (emitted w0 (processKeptnCloudEvent Reference.NewKeptn
                        reports_success reports_success ev_monaco w0).1)).
Proof.
  assert (Extensions ev_monaco !! "shkeptncontext" = Some (ExtString "ctx-1"))
    as H1 by (vm_compute; reflexivity).
  split; [assumption|]. split; [vm_compute; reflexivity|].
  apply (correlation_id_is_propagated Reference.NewKeptn reports_success
           reports_success ev_monaco w0 "ctx-1" H1).
  intros k e Hk. apply (Reference_NewKeptn_bound _ _ _ _ Hk).
Defined.


(** With a number as [shkeptncontext] the reference [NewKeptn] panics in
    its type assertion: the router panics with it after its first log
    entry, no handler is called and nothing is sent. *)
Lemma non_string_context_panics :
  Reference.NewKeptn ev_monaco_intcontext (keptnOptions w0)
  = Panicked "interface conversion: interface {} is int32, not string"
  ∧ processKeptnCloudEvent Reference.NewKeptn reports_success
      reports_success ev_monaco_intcontext w0
    = (extend w0 [] [entry_init ev_monaco_intcontext] [] [],
       Panics "interface conversion: interface {} is int32, not string").
Proof. split; by vm_compute. Qed.

(** Object members are matched without regard to case: the payload
    [{"Project":"p1"}] decodes into project "p1" as well. *)
Lemma member_names_fold_case :
  DataAs (mkEvent "sh.keptn.event.monaco.triggered" "id-1"
            "shipyard-controller" ∅
            (Some (JObj [("Project", JStr "p1")])))
    MonacoStartedEventData_zero
  = (data_p1, None).
Proof. by vm_compute. Qed.


(** The theorem at the monaco envelope without the extension. *)
Lemma missing_correlation_id_does_not_block_witness :
  Extensions ev_monaco_nocontext !! "shkeptncontext" = None
  ∧ keptn.logKeptnContext (logger_of ev_monaco_nocontext) = ""
  ∧ take 1 (logged w0
              (processKeptnCloudEvent Reference.NewKeptn reports_success
                 reports_success ev_monaco_nocontext w0).1)
    = [entry_init ev_monaco_nocontext].
Proof.
  assert (Extensions ev_monaco_nocontext !! "shkeptncontext" = None) as H
    by reflexivity.
  destruct (missing_correlation_id_does_not_block Reference.NewKeptn
              reports_success reports_success ev_monaco_nocontext w0)
    as (Habsent & _ & _ & _ & Hfirst & _).
  split; [exact H|]. split; [exact (Habsent H)|exact Hfirst].
Defined.

(** The theorem at an envelope [NewKeptn] rejects: the call leaves through
    line 64. *)
Lemma second_error_check_is_dead_witness :
  Reference.NewKeptn ev_unknown_array (keptnOptions w0)
  = Returned (None, Some "json: cannot unmarshal into Go value")
  ∧ processKeptnCloudEvent Reference.NewKeptn reports_success
      reports_success ev_unknown_array w0
    = (extend w0 [] [entry_init ev_unknown_array] [] [],
       Returns (Line64,
                Some ("Could not create Keptn Handler: "
                      +:+ "json: cannot unmarshal into Go value"))).
Proof.
  assert (Reference.NewKeptn ev_unknown_array (keptnOptions w0)
          = Returned (None, Some "json: cannot unmarshal into Go value")) as H
    by (vm_compute; reflexivity).
  destruct (second_error_check_is_dead Reference.NewKeptn reports_success
              reports_success ev_unknown_array w0) as (_ & _ & Hfirst).
  split; [exact H|exact (Hfirst _ _ H)].
Defined.

(** The theorem at the empty environment. *)
Lemma configuration_defaults_witness :
  ParseInt_8080 "8080" = Some 8080%Z
  ∧ (∅ : gmap string string) !! "RCV_PORT" = None
  ∧ (∅ : gmap string string) !! "RCV_PATH" = None
  ∧ (∅ : gmap string string) !! "ENV" = None
  ∧ envconfig_Process ParseInt_8080 ∅
    = inl (mkEnvConfig 8080 "/" "local" "").
Proof.
  assert (ParseInt_8080 "8080" = Some 8080%Z) as H0 by reflexivity.
  assert ((∅ : gmap string string) !! "RCV_PORT" = None) as H1
    by apply lookup_empty.
  assert ((∅ : gmap string string) !! "RCV_PATH" = None) as H2
    by apply lookup_empty.
  assert ((∅ : gmap string string) !! "ENV" = None) as H3
    by apply lookup_empty.
  destruct (configuration_defaults ParseInt_8080 NewHTTP_ok NewHTTP_ok
              StartReceiver_idle ∅ [] w0 H0 H1 H2 H3)
    as (env & Hprocess & Hport & Hpath & Henv & Hurl & _).
  split; [exact H0|]. split; [exact H1|]. split; [exact H2|].
  split; [exact H3|].
  destruct env as [port path mode url]. simpl in *. by subst.
Defined.

(** ** The coverage properties on concrete inputs *)

Import MoreExamples.

(** The provenance of a returned error, at the monaco envelope and a
    handler that returns an error. *)
Lemma returned_error_provenance_witness :
  returned_error
    (processKeptnCloudEvent Reference.NewKeptn fails_silently fails_silently
       ev_monaco w0).2 = Some (Some "monaco failed")
  ∧ ((∃ p e', Reference.NewKeptn ev_monaco (keptnOptions w0)
              = Returned (p, Some e')
              ∧ "monaco failed" = "Could not create Keptn Handler: " +:+ e'
              ∧ returned_at
                  (processKeptnCloudEvent Reference.NewKeptn fails_silently
                     fails_silently ev_monaco w0).2 = Some Line64)
     ∨ (∃ k run, Reference.NewKeptn ev_monaco (keptnOptions w0)
                 = Returned (Some k, None)
                 ∧ selected_run fails_silently fails_silently k ev_monaco
                   = Some run
                 ∧ exit run = HandledFailure "monaco failed")).
Proof.
  assert (returned_error
            (processKeptnCloudEvent Reference.NewKeptn fails_silently
               fails_silently ev_monaco w0).2 = Some (Some "monaco failed"))
    as H by (vm_compute; reflexivity).
  exact (conj H (returned_error_provenance Reference.NewKeptn fails_silently
                   fails_silently ev_monaco w0 "monaco failed" H)).
Defined.

(** The provenance of an exit, at the configure-monitoring envelope with
    the mismatching payload. *)
Lemma exit_provenance_witness :
  (processKeptnCloudEvent Reference.NewKeptn succeeds_silently
     succeeds_silently ev_configure_mismatch w0).2 = Exits 1
  ∧ registered (EventType ev_configure_mismatch)
  ∧ called w0 (processKeptnCloudEvent Reference.NewKeptn succeeds_silently
                 succeeds_silently ev_configure_mismatch w0).1 = [].
Proof.
  assert ((processKeptnCloudEvent Reference.NewKeptn succeeds_silently
             succeeds_silently ev_configure_mismatch w0).2 = Exits 1) as H
    by (vm_compute; reflexivity).
  destruct (exit_provenance Reference.NewKeptn succeeds_silently
              succeeds_silently ev_configure_mismatch w0 1 H)
    as (_ & Hreg & _ & _ & Hcalled & _).
  exact (conj H (conj Hreg Hcalled)).
Defined.

(** The provenance of a panic, at the monaco envelope and the faulting
    handler. *)
Lemma panic_provenance_witness :
  (processKeptnCloudEvent Reference.NewKeptn faults_after_started
     faults_after_started ev_monaco w0).2 = Panics "boom"
  ∧ ((Reference.NewKeptn ev_monaco (keptnOptions w0) = Panicked "boom"
      ∧ called w0 (processKeptnCloudEvent Reference.NewKeptn
                     faults_after_started faults_after_started ev_monaco
                     w0).1 = [])
     ∨ (Reference.NewKeptn ev_monaco (keptnOptions w0) = Returned (None, None)
        ∧ called w0 (processKeptnCloudEvent Reference.NewKeptn
                       faults_after_started faults_after_started ev_monaco
                       w0).1 = [])
     ∨ (∃ k run, Reference.NewKeptn ev_monaco (keptnOptions w0)
                 = Returned (Some k, None)
                 ∧ payload_error ev_monaco = None
                 ∧ selected_run faults_after_started faults_after_started k
                     ev_monaco = Some run
                 ∧ exit run = UnexpectedFault "boom")).
Proof.
  assert ((processKeptnCloudEvent Reference.NewKeptn faults_after_started
             faults_after_started ev_monaco w0).2 = Panics "boom") as H
    by (vm_compute; reflexivity).
  exact (conj H (panic_provenance Reference.NewKeptn faults_after_started
                   faults_after_started ev_monaco w0 "boom" H)).
Defined.

(** A failing [NewKeptn], at an envelope with an array payload. *)
Lemma keptn_creation_failure_short_circuits_witness :
  Reference.NewKeptn ev_unknown_array (keptnOptions w0)
  = Returned (None, Some "json: cannot unmarshal into Go value")
  ∧ returned_at
      (processKeptnCloudEvent Reference.NewKeptn reports_success
         reports_success ev_unknown_array w0).2 = Some Line64.
Proof.
  assert (Reference.NewKeptn ev_unknown_array (keptnOptions w0)
          = Returned (None, Some "json: cannot unmarshal into Go value")) as H
    by (vm_compute; reflexivity).
  split; [exact H|].
  by rewrite (keptn_creation_failure_short_circuits Reference.NewKeptn
                reports_success reports_success ev_unknown_array w0 _ _ H).
Defined.

(** The finished event of the monaco task is dropped. *)
Lemma only_triggered_phase_is_dispatched_witness :
  EventType ev_monaco_finished = keptnv2.GetFinishedEventType "monaco"
  ∧ Reference.NewKeptn ev_monaco_finished (keptnOptions w0)
    = Returned (Some keptn_monaco_finished, None)
  ∧ (processKeptnCloudEvent Reference.NewKeptn reports_success
       reports_success ev_monaco_finished w0).2 = Returns (Line206, None)
  ∧ called w0 (processKeptnCloudEvent Reference.NewKeptn reports_success
                 reports_success ev_monaco_finished w0).1 = []
  ∧ emitted w0 (processKeptnCloudEvent Reference.NewKeptn reports_success
                  reports_success ev_monaco_finished w0).1 = [].
Proof.
  assert (EventType ev_monaco_finished
          = keptnv2.GetFinishedEventType "monaco") as H1 by reflexivity.
  assert (Reference.NewKeptn ev_monaco_finished (keptnOptions w0)
          = Returned (Some keptn_monaco_finished, None)) as H2
    by (vm_compute; reflexivity).
  exact (conj H1 (conj H2
           (only_triggered_phase_is_dispatched Reference.NewKeptn
              reports_success reports_success "monaco" ev_monaco_finished w0
              keptn_monaco_finished (or_intror (or_introl H1)) H2))).
Defined.

(** A receiver that stops with "http: Server closed". *)
Lemma receiver_stop_exits_with_1_witness :
  NewHTTP_ok (Path env_default) (Port env_default) = None
  ∧ (_main NewHTTP_ok NewHTTP_ok StartReceiver_stops [] env_default w0).2
    = Exits 1.
Proof.
  assert (NewHTTP_ok (Path env_default) (Port env_default) = None) as H
    by reflexivity.
  split; [exact H|].
  by rewrite (receiver_stop_exits_with_1 NewHTTP_ok NewHTTP_ok
                StartReceiver_stops [] env_default w0 _ _ H H eq_refl).
Defined.

(** A port the HTTP protocol rejects. *)
Lemma client_creation_failure_exits_witness :
  NewHTTP_invalid (Path env_default) (Port env_default) = Some "invalid port"
  ∧ (_main NewHTTP_invalid NewHTTP_ok StartReceiver_idle [] env_default w0).2
    = Exits 1.
Proof.
  assert (NewHTTP_invalid (Path env_default) (Port env_default)
          = Some "invalid port") as H by reflexivity.
  split; [exact H|].
  by rewrite (client_creation_failure_exits NewHTTP_invalid NewHTTP_ok
                StartReceiver_idle [] env_default w0 _ (or_introl H)).
Defined.

(** [RCV_PORT=eighty]. *)
Lemma unparsable_port_exits_witness :
  environ_bad_port !! "RCV_PORT" = Some "eighty"
  ∧ ParseInt_8080 "eighty" = None
  ∧ ∃ err,
      main ParseInt_8080 NewHTTP_ok NewHTTP_ok StartReceiver_idle
        environ_bad_port [] w0
      = (extend w0 ["Failed to process env var: " +:+ err] [] [] [], Exits 1).
Proof.
  assert (environ_bad_port !! "RCV_PORT" = Some "eighty") as H1
    by apply lookup_singleton_eq.
  assert (ParseInt_8080 "eighty" = None) as H2 by reflexivity.
  exact (conj H1 (conj H2
           (unparsable_port_exits ParseInt_8080 NewHTTP_ok NewHTTP_ok
              StartReceiver_idle environ_bad_port [] w0 "eighty" H1 H2))).
Defined.



(** The test without its event file. *)
Lemma test_stops_on_initialization_error_witness :
  initializeTestObjects ReadFile_empty Unmarshal_sample Reference.NewKeptn
    "test-events/monaco.triggered.json"
  = Returned (None, None,
              Some ("Cant load test-events/monaco.triggered.json: "
                    +:+ "no such file or directory"))
  ∧ TestHandleMonacoTriggeredEvent ReadFile_empty Unmarshal_sample
      Reference.NewKeptn reports_success w0
    = (w0, Returns ["Cant load test-events/monaco.triggered.json: "
                    +:+ "no such file or directory"]).
Proof.
  assert (initializeTestObjects ReadFile_empty Unmarshal_sample
            Reference.NewKeptn "test-events/monaco.triggered.json"
          = Returned (None, None,
                      Some ("Cant load test-events/monaco.triggered.json: "
                            +:+ "no such file or directory"))) as H
    by reflexivity.
  destruct (test_stops_on_initialization_error ReadFile_empty
              Unmarshal_sample Reference.NewKeptn reports_success w0 _ _ _ H)
    as [Hrun _].
  exact (conj H Hrun).
Defined.

